(** * Structured logging and warning escalation of hummingbot

    A shallow embedding of [hummingbot/logger/logger.py]: the remote
    (MQTT) handler, the logger with its two domain operations [notify] and
    [network], the test-mode scan of [sys.argv] and the caller resolver
    [findCaller].  Effects (clock, transport, trace of observable calls,
    exceptions) are threaded through a small state-and-error monad. *)

From Stdlib Require Import ZArith QArith String Ascii List Lia Bool.
From stdpp Require Import base strings gmap list.

Local Open Scope Z_scope.
Set Default Proof Using "Type".

(** ** Python string operations used by the module *)

Module PyStr.

(** [s.startswith(p)] *)
Fixpoint startswith (p s : string) : bool :=
  match p, s with
  | EmptyString, _ => true
  | String _ _, EmptyString => false
  | String a p', String b s' => Ascii.eqb a b && startswith p' s'
  end.

(** [needle in hay] on two [str] values: substring test. *)
Fixpoint contains (needle hay : string) : bool :=
  startswith needle hay ||
  match hay with
  | EmptyString => false
  | String _ t => contains needle t
  end.

(** [s.replace(old, new)] for a non-empty [old]: occurrences are replaced
    left to right and do not overlap; [skip] counts the characters of a
    match that remain to be dropped. *)
Fixpoint replace_from (old new : string) (skip : nat) (s : string) : string :=
  match s with
  | EmptyString => EmptyString
  | String c t =>
      match skip with
      | S k => replace_from old new k t
      | O =>
          if startswith old s
          then new +:+ replace_from old new (String.length old - 1) t
          else String c (replace_from old new O t)
      end
  end.

(** With an empty [old], Python puts [new] before every character and at
    the end. *)
Fixpoint replace_empty (new s : string) : string :=
  match s with
  | EmptyString => new
  | String c t => new +:+ String c (replace_empty new t)
  end.

Definition replace (old new s : string) : string :=
  match old with
  | EmptyString => replace_empty new s
  | String _ _ => replace_from old new O s
  end.

(** [str(x)] for an [Optional[str]]: [str(None)] is the text [None]. *)
Definition str_of_optional (x : option string) : string :=
  match x with
  | Some s => s
  | None => "None"
  end.

(** [if s[-1] == '\n': s = s[:-1]] on a non-empty [s] *)
Fixpoint rstrip_newline (s : string) : string :=
  match s with
  | EmptyString => EmptyString
  | String c t =>
      match t with
      | EmptyString => if Ascii.eqb c "010"%char then EmptyString else s
      | String _ _ => String c (rstrip_newline t)
      end
  end.

(** [int(x)] for a finite float, read as a rational: truncation toward
    zero. *)
Definition int_of (x : Q) : Z := Z.quot (Qnum x) (Z.pos (Qden x)).

End PyStr.

(** ** Test-mode detection *)

Definition TESTING_TOOLS : list string := ["nose"; "unittest"; "pytest"]%string.

(** [any(tools in arg for tools in TESTING_TOOLS for arg in sys.argv)] *)
Definition is_testing_mode (argv : list string) : bool :=
  existsb (fun tools => existsb (fun arg => PyStr.contains tools arg) argv)
          TESTING_TOOLS.

(** ** Data model *)

(** The fields of a standard [logging.LogRecord] that the module reads. *)
Record LogRecord := {
  rec_name : string;      (* record.name *)
  levelno : Z;            (* record.levelno *)
  levelname : string;     (* record.levelname *)
  rec_msg : string        (* record.getMessage() *)
}.

(** [LogMessage]: the wire projection of a record. *)
Record LogMessage := {
  timestamp : Q;
  msg : string;
  level_no : Z;
  level_name : string;
  logger_name : string
}.

(** Frames of the interpreter's call stack.  A frame pointer is the list
    of frames from that frame outwards: [f.f_back] is the tail and [None]
    the empty list. *)
Record Code := { co_filename : string; co_name : string }.
Record Frame := { f_code : Code; f_lineno : Z }.

(** The tuple [(filename, lineno, function, stack text)] of [findCaller]. *)
Definition CallerInfo : Type := string * Z * string * option string.

(** [ApplicationWarning], a named tuple declared in a sibling module. *)
Record ApplicationWarning := {
  aw_timestamp : Q;
  aw_logger_name : string;
  caller_info : CallerInfo;
  warning_msg : string
}.

Inductive ConnectionParameters :=
| DefaultConnectionParameters               (* MQTTConnectionParameters() *)
| GivenConnectionParameters (ref : nat).    (* an object passed by the caller *)

Record MQTTPublisher := {
  conn_params : ConnectionParameters;
  topic : string
}.

Record MQTTHandler := {
  mqtt_level : Z;                 (* Handler.level *)
  mqtt_pub : MQTTPublisher
}.

(** Handlers attached to a logger: the remote handler of this module, or a
    handler of the standard library, identified by [id]. *)
Inductive Handler :=
| HMQTT (h : MQTTHandler)
| HStd (id : nat) (lvl : Z).

Record HummingbotLogger := {
  name : string;
  level : Z;
  disabled : bool;
  handlers : list Handler
}.

Inductive Exn :=
| ValueError (what : string)
| AttributeError (what : string)
| TypeError (what : string)
| TransportError (what : string).

Inductive Result (A : Type) :=
| Ret (a : A)
| Raise (e : Exn).
Arguments Ret {A} a.
Arguments Raise {A} e.

(** What a run leaves behind, in order. *)
Inductive Event :=
| EvRecord (r : LogRecord)                      (* the logger built [r] and dispatched it *)
| EvHandled (id : nat) (r : LogRecord)          (* a standard handler received [r] *)
| EvPublish (tp : string) (m : LogMessage)      (* [mqtt_pub.publish(m)] was called *)
| EvAppNotify (text : string)                   (* [hummingbot_app.notify(text)] *)
| EvAppWarning (a : ApplicationWarning).        (* [hummingbot_app.add_application_warning(a)] *)

Inductive HummingbotApplication := TheApplication.

(** The process and its surroundings. *)
Record World := {
  argv : list string;                    (* sys.argv *)
  environ : gmap string string;          (* os.environ *)
  clock : nat -> Q;                      (* successive readings of time.time() *)
  ticks : nat;                           (* readings taken so far *)
  transport : list (option Exn);         (* outcome of the next publish calls *)
  main_app : option HummingbotApplication;
  manager_disable : Z;                   (* Logger.manager.disable *)
  trace : list Event
}.

Definition with_trace (w : World) (tr : list Event) : World :=
  {| argv := argv w; environ := environ w; clock := clock w; ticks := ticks w;
     transport := transport w; main_app := main_app w;
     manager_disable := manager_disable w; trace := tr |}.

Definition with_ticks (w : World) (n : nat) : World :=
  {| argv := argv w; environ := environ w; clock := clock w; ticks := n;
     transport := transport w; main_app := main_app w;
     manager_disable := manager_disable w; trace := trace w |}.

Definition with_transport (w : World) (t : list (option Exn)) : World :=
  {| argv := argv w; environ := environ w; clock := clock w; ticks := ticks w;
     transport := t; main_app := main_app w;
     manager_disable := manager_disable w; trace := trace w |}.

(** ** The state-and-error monad *)

Definition M (A : Type) : Type := World -> Result A * World.

Definition ret {A} (a : A) : M A := fun w => (Ret a, w).

Definition raise {A} (e : Exn) : M A := fun w => (Raise e, w).

Definition bind {A B} (c : M A) (k : A -> M B) : M B :=
  fun w =>
    match c w with
    | (Ret a, w1) => k a w1
    | (Raise e, w1) => (Raise e, w1)
    end.

Declare Scope py_scope.
Delimit Scope py_scope with py.
Notation "'let!' x ':=' c 'in' k" := (bind c (fun x => k))
  (at level 10, x name, c at level 100, k at level 200) : py_scope.
Notation "c '>>>' k" := (bind c (fun _ => k))
  (at level 90, right associativity) : py_scope.
Local Open Scope py_scope.

Definition event (e : Event) : M unit :=
  fun w => (Ret tt, with_trace w (trace w ++ [e])).

(** [time.time()] *)
Definition time_time : M Q :=
  fun w => (Ret (clock w (ticks w)), with_ticks w (S (ticks w))).

(** [sys.argv] and [os.getenv(key)] *)
Definition sys_argv : M (list string) := fun w => (Ret (argv w), w).
Definition os_getenv (key : string) : M (option string) :=
  fun w => (Ret (environ w !! key), w).

(** [pub.publish(m)]: the transport is an external collaborator; the call
    is recorded and its outcome is the next one of [transport] (a call
    beyond the scripted outcomes succeeds). *)
Definition publish (pub : MQTTPublisher) (m : LogMessage) : M unit :=
  fun w =>
    let w1 := with_trace w (trace w ++ [EvPublish (topic pub) m]) in
    match transport w with
    | [] => (Ret tt, w1)
    | None :: rest => (Ret tt, with_transport w1 rest)
    | Some e :: rest => (Raise e, with_transport w1 rest)
    end.

(** Modelled from the spec: the host-application singleton accessor
    [HummingbotApplication.main_application()], declared outside this
    module; it yields the running instance, or none before startup. *)
Definition main_application : M (option HummingbotApplication) :=
  fun w => (Ret (main_app w), w).

(** Modelled from the spec: [hummingbot_app.notify(text)], the
    notification surface of the host application.  Looking the method up
    on [None] raises. *)
Definition app_notify (app : option HummingbotApplication) (text : M string) : M unit :=
  match app with
  | None => raise (AttributeError "'NoneType' object has no attribute 'notify'")
  | Some _ => let! t := text in event (EvAppNotify t)
  end.

(** Modelled from the spec: [hummingbot_app.add_application_warning(a)],
    the warning surface of the host application. *)
Definition app_add_application_warning
    (app : option HummingbotApplication) (a : ApplicationWarning) : M unit :=
  match app with
  | None => raise (AttributeError "'NoneType' object has no attribute 'add_application_warning'")
  | Some _ => event (EvAppWarning a)
  end.

(** Outcome and final world of a run. *)
Definition result_of {A} (c : M A) (w : World) : Result A := fst (c w).
Definition world_after {A} (c : M A) (w : World) : World := snd (c w).

(** Levels of the standard [logging] module. *)
Definition NOTSET : Z := 0.
Definition WARNING : Z := 30.

(** ** The network and account modes of the Injective connector

    [hummingbot/connector/exchange/injective_v2/injective_v2_utils.py]:
    the validators of the configuration map and the tables they consult.
    A value reaching a validator is a string, a mapping, or an instance
    of one of the mode classes. *)

Module InjectiveV2Utils.

(** [sep.join(l)] *)
Fixpoint join (sep : string) (l : list string) : string :=
  match l with
  | [] => EmptyString
  | [s] => s
  | s :: rest => s +:+ sep +:+ join sep rest
  end.

(** [repr] of a list of plain strings, as an f-string renders it. *)
Definition repr_list (l : list string) : string :=
  "[" +:+ join ", " (map (fun s => "'" +:+ s +:+ "'") l) +:+ "]".

Definition MAINNET_NODES : list string := ["lb"; "sentry0"; "sentry1"; "sentry3"]%string.

(** [InjectiveMainnetNetworkMode.validate_node] *)
Definition validate_node (v : string) : Result string :=
  if bool_decide (v ∈ MAINNET_NODES)
  then Ret v
  else Raise (ValueError (v +:+ " is not a valid node (" +:+ repr_list MAINNET_NODES +:+ ")")).

Inductive NetworkModeClass :=
| InjectiveNetworkMode                (* the abstract base *)
| InjectiveMainnetNetworkMode
| InjectiveTestnetNetworkMode
| InjectiveCustomNetworkMode.

Inductive AccountModeClass :=
| InjectiveDelegatedAccountMode
| InjectiveVaultAccountMode.

(** [cls.Config.title] of the three concrete network modes. *)
Definition mainnet_title : string := "mainnet_network".
Definition testnet_title : string := "testnet_network".
Definition custom_title : string := "custom_network".
Definition delegate_title : string := "delegate_account".
Definition vault_title : string := "vault_account".

(** The two tables, in insertion order. *)
Definition NETWORK_MODES : list (string * NetworkModeClass) :=
  [(mainnet_title, InjectiveNetworkMode);
   (testnet_title, InjectiveTestnetNetworkMode);
   (custom_title, InjectiveCustomNetworkMode)].

Definition ACCOUNT_MODES : list (string * AccountModeClass) :=
  [(delegate_title, InjectiveDelegatedAccountMode);
   (vault_title, InjectiveVaultAccountMode)].

(** [d[k]] and [k in d] on a table. *)
Fixpoint getitem {A} (d : list (string * A)) (k : string) : option A :=
  match d with
  | [] => None
  | (k', a) :: rest => if String.eqb k k' then Some a else getitem rest k
  end.

Definition keys {A} (d : list (string * A)) : list string := map fst d.
Definition values {A} (d : list (string * A)) : list A := map snd d.

(** The use of a secure connection by the three network modes. *)
Definition mainnet_use_secure_connection (node : string) : bool := String.eqb node "lb".
Definition testnet_use_secure_connection : bool := true.
Definition custom_use_secure_connection (secure_connection : bool) : bool := secure_connection.

(** What a validator is handed: a string, a mapping, or an instance of a
    class with its field values. *)
Inductive Raw (C : Type) :=
| RawStr (s : string)
| RawDict (d : list (string * string))
| RawInstance (cls : C) (fields : list (string * string)).
Arguments RawStr {C} s.
Arguments RawDict {C} d.
Arguments RawInstance {C} cls fields.

(** What a validator returns: the value it was handed, or the instance
    [cls.construct()] builds. *)
Inductive SubModel (C : Type) :=
| Given (v : Raw C)
| Constructed (cls : C).
Arguments Given {C} v.
Arguments Constructed {C} cls.

(** [issubclass] among the network mode classes. *)
Definition network_issubclass (c base : NetworkModeClass) : bool :=
  match base, c with
  | InjectiveNetworkMode, _ => true
  | InjectiveMainnetNetworkMode, InjectiveMainnetNetworkMode => true
  | InjectiveTestnetNetworkMode, InjectiveTestnetNetworkMode => true
  | InjectiveCustomNetworkMode, InjectiveCustomNetworkMode => true
  | _, _ => false
  end.

Definition account_issubclass (c base : AccountModeClass) : bool :=
  match base, c with
  | InjectiveDelegatedAccountMode, InjectiveDelegatedAccountMode => true
  | InjectiveVaultAccountMode, InjectiveVaultAccountMode => true
  | _, _ => false
  end.

(** [isinstance(v, tuple(table.values()) + (Dict,))] *)
Definition isinstance_of {C} (issubclass : C -> C -> bool) (classes : list C)
    (v : Raw C) : bool :=
  match v with
  | RawStr _ => false
  | RawDict _ => true
  | RawInstance cls _ => existsb (issubclass cls) classes
  end.

(** The methods a class leaves abstract, and its name. *)
Definition network_abstract_methods (cls : NetworkModeClass) : list string :=
  match cls with
  | InjectiveNetworkMode => ["network"; "use_secure_connection"]%string
  | _ => []
  end.

Definition account_abstract_methods (cls : AccountModeClass) : list string := [].

Definition network_class_name (cls : NetworkModeClass) : string :=
  match cls with
  | InjectiveNetworkMode => "InjectiveNetworkMode"
  | InjectiveMainnetNetworkMode => "InjectiveMainnetNetworkMode"
  | InjectiveTestnetNetworkMode => "InjectiveTestnetNetworkMode"
  | InjectiveCustomNetworkMode => "InjectiveCustomNetworkMode"
  end.

Definition account_class_name (cls : AccountModeClass) : string :=
  match cls with
  | InjectiveDelegatedAccountMode => "InjectiveDelegatedAccountMode"
  | InjectiveVaultAccountMode => "InjectiveVaultAccountMode"
  end.

(** [cls.construct()]: pydantic allocates the instance with
    [cls.__new__(cls)], which the interpreter refuses with a TypeError
    for a class that has abstract methods left. *)
Definition construct {C} (abstract_methods : C -> list string)
    (class_name : C -> string) (cls : C) : Result (SubModel C) :=
  match abstract_methods cls with
  | [] => Ret (Constructed cls)
  | [m] =>
      Raise (TypeError ("Can't instantiate abstract class " +:+ class_name cls
                        +:+ " with abstract method " +:+ m))
  | ms =>
      Raise (TypeError ("Can't instantiate abstract class " +:+ class_name cls
                        +:+ " with abstract methods " +:+ join ", " ms))
  end.

(** The body shared by the two validators of the configuration map;
    [what] is the noun of the error message.  The membership test is
    reached with a string only: the instances of the mode classes all
    pass the [isinstance] test. *)
Definition validate_against {C} (issubclass : C -> C -> bool)
    (abstract_methods : C -> list string) (class_name : C -> string)
    (table : list (string * C)) (what : string) (v : Raw C) : Result (SubModel C) :=
  if isinstance_of issubclass (values table) v
  then Ret (Given v)
  else
    match v with
    | RawStr s =>
        match getitem table s with
        | None =>
            Raise (ValueError ("Invalid " +:+ what +:+ ", please choose a value from "
                               +:+ repr_list (keys table) +:+ "."))
        | Some cls => construct abstract_methods class_name cls
        end
    | _ => Ret (Given v)
    end.

(** [InjectiveConfigMap.validate_network] *)
Definition validate_network (v : Raw NetworkModeClass) : Result (SubModel NetworkModeClass) :=
  validate_against network_issubclass network_abstract_methods network_class_name
    NETWORK_MODES "network" v.

(** [InjectiveConfigMap.validate_account_type] *)
Definition validate_account_type (v : Raw AccountModeClass)
    : Result (SubModel AccountModeClass) :=
  validate_against account_issubclass account_abstract_methods account_class_name
    ACCOUNT_MODES "account type" v.

End InjectiveV2Utils.

Section Logger.

(** Levels imported from the enclosing package ([from . import INFO],
    [from . import NETWORK]); the package's initialiser is not part of
    this module. *)
Variable INFO : Z.
Variable NETWORK : Z.

(** [co_filename] of the code objects compiled from this module. *)
Variable logger_py : string.

(** [os.path.normcase], which depends on the platform. *)
Variable normcase : string -> string.

(** [hasattr(sys, '_getframe')] *)
Variable has_getframe : bool.

(** [logging.getLevelName], [Handler.format], the text of
    [pd.Timestamp.fromtimestamp(n)] and [traceback.print_stack]. *)
Variable getLevelName : Z -> string.
Variable format : LogRecord -> string.
Variable Timestamp_fromtimestamp : Z -> string.
Variable print_stack : list Frame -> string.

(** *** MQTTHandler *)

Definition MQTT_URI : string := "hbot/$UID/log".

Definition MQTTHandler_init
    (mqtt_params : option ConnectionParameters) (mqtt_topic : option string)
    : M MQTTHandler :=
  let mqtt_params :=
    match mqtt_params with
    | None => DefaultConnectionParameters
    | Some p => p
    end in
  let! mqtt_topic :=
    (if bool_decide (mqtt_topic ∈ [Some ""%string; None])
     then let! uid := os_getenv "HBOT_UID" in
          ret (PyStr.replace "$UID" (PyStr.str_of_optional uid) MQTT_URI)
     else ret (PyStr.str_of_optional mqtt_topic)) in
  ret {| mqtt_level := NOTSET;
         mqtt_pub := {| conn_params := mqtt_params; topic := mqtt_topic |} |}.

Definition MQTTHandler_emit (self : MQTTHandler) (record : LogRecord) : M unit :=
  let msg_str := format record in
  let! now := time_time in
  let m := {| timestamp := now;
              msg := msg_str;
              level_no := levelno record;
              level_name := levelname record;
              logger_name := rec_name record |} in
  publish (mqtt_pub self) m.

(** *** The inherited dispatch of [logging.Logger] *)

Definition handler_level (h : Handler) : Z :=
  match h with
  | HMQTT m => mqtt_level m
  | HStd _ lvl => lvl
  end.

Definition handle (h : Handler) (record : LogRecord) : M unit :=
  match h with
  | HMQTT m => MQTTHandler_emit m record
  | HStd id _ => event (EvHandled id record)
  end.

(** [callHandlers]: every handler whose level admits the record. *)
Fixpoint callHandlers (hs : list Handler) (record : LogRecord) : M unit :=
  match hs with
  | [] => ret tt
  | h :: rest =>
      (if handler_level h <=? levelno record then handle h record else ret tt)
      >>> callHandlers rest record
  end.

(** [getEffectiveLevel] of a logger without a parent: its own level if
    that is set, NOTSET otherwise. *)
Definition getEffectiveLevel (self : HummingbotLogger) : Z :=
  if level self =? 0 then NOTSET else level self.

(** [isEnabledFor]: a disabled logger admits nothing, nor is a level at
    or below [manager.disable] admitted; otherwise the effective level
    decides. *)
Definition isEnabledFor (self : HummingbotLogger) (disable lvl : Z) : bool :=
  if disabled self then false
  else if lvl <=? disable then false
  else getEffectiveLevel self <=? lvl.

(** [self.manager.disable] *)
Definition logging_disable : M Z := fun w => (Ret (manager_disable w), w).

Definition makeRecord (self : HummingbotLogger) (lvl : Z) (text : string) : LogRecord :=
  {| rec_name := name self; levelno := lvl;
     levelname := getLevelName lvl; rec_msg := text |}.

(** [self.log(lvl, text)] *)
Definition log (self : HummingbotLogger) (lvl : Z) (text : string) : M unit :=
  let! disable := logging_disable in
  if isEnabledFor self disable lvl
  then let record := makeRecord self lvl text in
       event (EvRecord record) >>> callHandlers (handlers self) record
  else ret tt.

(** [self.warning(text)] *)
Definition warning (self : HummingbotLogger) (text : string) : M unit :=
  log self WARNING text.

(** *** HummingbotLogger *)

Definition MQTT_LOGGING_TOKENS : list (option string) :=
  [Some "1"; Some "True"; Some "true"; Some "Yes";
   Some "Nai"; Some "Si"; Some "Da"; Some "sudo"]%string.

Definition HummingbotLogger_init (nm : string) : M HummingbotLogger :=
  let self := {| name := nm; level := NOTSET; disabled := false; handlers := [] |} in
  let! flag := os_getenv "HBOT_MQTT_LOGGING" in
  if bool_decide (flag ∈ MQTT_LOGGING_TOKENS)
  then let! h := MQTTHandler_init None (Some ""%string) in
       ret {| name := name self; level := level self; disabled := disabled self;
              handlers := handlers self ++ [HMQTT h] |}
  else ret self.

(** *** The caller resolver *)

Definition _srcfile : string := normcase logger_py.

Definition frame_of (function : string) (line : Z) : Frame :=
  {| f_code := {| co_filename := logger_py; co_name := function |};
     f_lineno := line |}.

(** [sys._getframe(depth)], called from the frame at the head of
    [stack]. *)
Definition sys_getframe (depth : nat) (stack : list Frame) : Result (list Frame) :=
  if (depth <? length stack)%nat
  then Ret (drop depth stack)
  else Raise (ValueError "call stack is not deep enough").

(** [currentframe()], called from the frame at the head of [stack]. *)
Definition currentframe (stack : list Frame) : Result (list Frame) :=
  if has_getframe
  then sys_getframe 3 (frame_of "currentframe" 25 :: stack)
  else Ret stack.

(** [while f and stacklevel > 1: f = f.f_back; stacklevel -= 1] *)
Fixpoint up_stacklevel (f : list Frame) (stacklevel : Z) : list Frame :=
  match f with
  | [] => []
  | _ :: f_back =>
      if 1 <? stacklevel then up_stacklevel f_back (stacklevel - 1) else f
  end.

Definition unknown_caller : CallerInfo :=
  ("(unknown file)"%string, 0, "(unknown function)"%string, None).

Definition stack_text (f : list Frame) : string :=
  PyStr.rstrip_newline
    ("Stack (most recent call last):" +:+ String "010"%char EmptyString
     +:+ print_stack f).

(** [while hasattr(f, "f_code"): ...] *)
Fixpoint first_external (stack_info : bool) (f : list Frame) : CallerInfo :=
  match f with
  | [] => unknown_caller
  | fr :: f_back =>
      let co := f_code fr in
      let filename := normcase (co_filename co) in
      if String.eqb filename _srcfile
      then first_external stack_info f_back
      else
        let sinfo := if stack_info then Some (stack_text f) else None in
        (co_filename co, f_lineno fr, co_name co, sinfo)
  end.

(** [self.findCaller(stack_info, stacklevel)]; [callers] are the frames
    above the resolver's own frame, innermost first. *)
Definition findCaller (stack_info : bool) (stacklevel : Z) (callers : list Frame)
    : Result CallerInfo :=
  match currentframe (frame_of "findCaller" 125 :: callers) with
  | Raise e => Raise e
  | Ret f =>
      let f := tail f in
      let orig_f := f in
      let f := up_stacklevel f stacklevel in
      let f := match f with [] => orig_f | _ :: _ => f end in
      Ret (first_external stack_info f)
  end.

Definition lift {A} (r : Result A) : M A := fun w => (r, w).

(** *** The two domain operations; [callers] are the frames above the
    operation's own frame. *)

Definition notify (self : HummingbotLogger) (text : string) : M unit :=
  log self INFO text >>>
  let! args := sys_argv in
  if negb (is_testing_mode args)
  then let! hummingbot_app := main_application in
       app_notify hummingbot_app
         (let! now := time_time in
          ret ("(" +:+ Timestamp_fromtimestamp (PyStr.int_of now) +:+ ") " +:+ text))
  else ret tt.

Definition network (self : HummingbotLogger) (log_msg : string)
    (app_warning_msg : option string) (callers : list Frame) : M unit :=
  log self NETWORK log_msg >>>
  match app_warning_msg with
  | None => ret tt
  | Some warning_text =>
      let! args := sys_argv in
      if negb (is_testing_mode args)
      then let! now := time_time in
           let! caller := lift (findCaller false 1 (frame_of "network" 112 :: callers)) in
           let app_warning :=
             {| aw_timestamp := now; aw_logger_name := name self;
                caller_info := caller; warning_msg := warning_text |} in
           warning self (warning_msg app_warning) >>>
           let! hummingbot_app := main_application in
           app_add_application_warning hummingbot_app app_warning
      else ret tt
  end.


(** *** Observations on a trace *)

(** Calls into the host application. *)
Definition is_app_call (e : Event) : bool :=
  match e with
  | EvAppNotify _ | EvAppWarning _ => true
  | _ => false
  end.

Definition app_calls (tr : list Event) : list Event := List.filter is_app_call tr.

(** What the logger itself does: records it dispatches and calls into
    the host application; what the handlers do with a record is left
    out. *)
Definition is_logger_event (e : Event) : bool :=
  match e with
  | EvRecord _ | EvAppNotify _ | EvAppWarning _ => true
  | EvHandled _ _ | EvPublish _ _ => false
  end.

Definition logger_events (tr : list Event) : list Event :=
  List.filter is_logger_event tr.

(** The record [self.log(lvl, text)] dispatches, if any. *)
Definition logged (self : HummingbotLogger) (disable lvl : Z) (text : string)
    : list Event :=
  if isEnabledFor self disable lvl then [EvRecord (makeRecord self lvl text)] else [].

(** No scripted publish outcome is a failure. *)
Definition reliable (w : World) : Prop := Forall (fun o => o = None) (transport w).

Definition is_std (h : Handler) : bool :=
  match h with
  | HStd _ _ => true
  | HMQTT _ => false
  end.

Definition has_remote_sink (lg : HummingbotLogger) : bool :=
  existsb (fun h => negb (is_std h)) (handlers lg).

(** A frame of the logging core: its normalised path is [_srcfile]. *)
Definition is_core (fr : Frame) : bool :=
  String.eqb (normcase (co_filename (f_code fr))) _srcfile.

Definition location (stack_info : bool) (f : list Frame) : CallerInfo :=
  match f with
  | [] => unknown_caller
  | fr :: _ =>
      (co_filename (f_code fr), f_lineno fr, co_name (f_code fr),
       if stack_info then Some (stack_text f) else None)
  end.

(** The frame at which the walk of [findCaller] starts. *)
Definition walk_start (callers : list Frame) : list Frame :=
  if has_getframe then drop 2 callers else callers.

(** The resolver as the specification words it: of the frames above the
    resolver's own, the first one outside the logging core. *)
Fixpoint spec_resolve (callers : list Frame) : CallerInfo :=
  match callers with
  | [] => unknown_caller
  | fr :: rest =>
      if is_core fr then spec_resolve rest else location false callers
  end.

(** Modelled from the spec: a rank for the domain level NOTIFY lies
    strictly between the ranks of INFO and WARNING; the module itself
    names no such level. *)
Definition is_NOTIFY_rank (n : Z) : Prop := INFO < n < WARNING.

(** *** Sample data *)

Definition sample_record : LogRecord :=
  {| rec_name := "x.y"; levelno := 20; levelname := "INFO"; rec_msg := "hello" |}.

Definition sample_handler : MQTTHandler :=
  {| mqtt_level := NOTSET;
     mqtt_pub := {| conn_params := DefaultConnectionParameters;
                    topic := "hbot/bot-7/log" |} |}.

Definition sample_logger : HummingbotLogger :=
  {| name := "x.y"; level := NOTSET; disabled := false;
     handlers := [HStd 0 NOTSET; HMQTT sample_handler] |}.

Definition sample_world (args : list string) (outcomes : list (option Exn)) : World :=
  {| argv := args;
     environ := {[ "HBOT_UID"%string := "bot-7"%string ]};
     clock := fun n => (1700000000 + Z.of_nat n) # 1;
     ticks := 0;
     transport := outcomes;
     main_app := Some TheApplication;
     manager_disable := 0;
     trace := [] |}.

Definition frame_at (file function : string) (line : Z) : Frame :=
  {| f_code := {| co_filename := file; co_name := function |}; f_lineno := line |}.

Definition sample_stack : list Frame :=
  [frame_at "hummingbot/logger/logger.py" "network" 112;
   frame_at "strategy/maker.py" "tick" 40;
   frame_at "bin/hummingbot.py" "main" 7].

(** The text [notify] hands to the host application when the clock
    reads [now]. *)
Definition notification (now : Q) (text : string) : string :=
  "(" +:+ Timestamp_fromtimestamp (PyStr.int_of now) +:+ ") " +:+ text.

(** The location [network] resolves when called from [callers]. *)
Definition network_caller (callers : list Frame) : Result CallerInfo :=
  findCaller false 1 (frame_of "network" 112 :: callers).

(** The handler [MQTTHandler()] builds in world [w]. *)
Definition default_handler (w : World) : MQTTHandler :=
  {| mqtt_level := NOTSET;
     mqtt_pub :=
       {| conn_params := DefaultConnectionParameters;
          topic := PyStr.replace "$UID"
                     (PyStr.str_of_optional (environ w !! "HBOT_UID"%string))
                     MQTT_URI |} |}.

Definition logger_file : string := "hummingbot/logger/logger.py".

(** [os.path.normcase] on POSIX. *)
Definition posix_normcase (s : string) : string := s.

Definition sample_getLevelName (n : Z) : string :=
  if n =? 20 then "INFO" else if n =? 30 then "WARNING" else "Level".

(** The default formatter: the record's message. *)
Definition sample_format (r : LogRecord) : string := rec_msg r.

Definition sample_timestamp (n : Z) : string :=
  if n =? 1700000000 then "2023-11-14 22:13:20" else "2023-11-14 22:13:21".

Definition sample_print_stack (f : list Frame) : string := EmptyString.

Definition broker_down : Exn := TransportError "broker unreachable".

(** *** Further operations and observations *)

(** A class object, as far as [logger_name_for_class] reads it. *)
Record PyClass := { cls_module : string; cls_qualname : string }.

(** [HummingbotLogger.logger_name_for_class(model_class)] *)
Definition logger_name_for_class (model_class : PyClass) : string :=
  cls_module model_class +:+ "." +:+ cls_qualname model_class.

(** [HummingbotLogger(nm).log(lvl, text)]: a logger is constructed and
    used at once. *)
Definition construct_and_log (nm : string) (lvl : Z) (text : string) : M unit :=
  let! self := HummingbotLogger_init nm in log self lvl text.

(** What the standard handlers among [hs] receive of [record]. *)
Definition std_deliveries (hs : list Handler) (record : LogRecord) : list Event :=
  flat_map (fun h =>
              match h with
              | HStd id lvl =>
                  if lvl <=? levelno record then [EvHandled id record] else []
              | HMQTT _ => []
              end) hs.

(** [e] is the dispatch of [record], or what a handler does with it. *)
Definition carries (record : LogRecord) (e : Event) : Prop :=
  match e with
  | EvRecord r | EvHandled _ r => r = record
  | EvPublish _ m =>
      msg m = format record /\ level_no m = levelno record /\
      level_name m = levelname record /\ logger_name m = rec_name record
  | EvAppNotify _ | EvAppWarning _ => False
  end.

(** A world with the environment [env], no clock reading taken and a
    running host application. *)
Definition sample_world_in (env : gmap string string) (args : list string)
    (outcomes : list (option Exn)) : World :=
  {| argv := args;
     environ := env;
     clock := fun n => (1700000000 + Z.of_nat n) # 1;
     ticks := 0;
     transport := outcomes;
     main_app := Some TheApplication;
     manager_disable := 0;
     trace := [] |}.

(** A logger that lets only CRITICAL through, and one with a standard
    handler on either side of the remote handler. *)
Definition quiet_logger : HummingbotLogger :=
  {| name := "x.y"; level := 50; disabled := false; handlers := [HMQTT sample_handler] |}.

Definition chained_logger : HummingbotLogger :=
  {| name := "x.y"; level := NOTSET; disabled := false;
     handlers := [HStd 0 NOTSET; HMQTT sample_handler; HStd 1 NOTSET] |}.

Definition sample_class : PyClass :=
  {| cls_module := "hummingbot.strategy.maker"; cls_qualname := "Maker" |}.

(** The stack above the resolver when [network], called from [tick],
    called from [main], logs through the inherited [log] and [_log]. *)
Definition dispatch_stack : list Frame :=
  [frame_at "logging/__init__.py" "_log" 1624;
   frame_at "logging/__init__.py" "log" 1547;
   frame_at "hummingbot/logger/logger.py" "network" 107;
   frame_at "strategy/maker.py" "tick" 40;
   frame_at "bin/hummingbot.py" "main" 7].

(** [step evs w w']: from [w] to [w'] the process arguments, the
    environment, the host application and the clock are untouched, the
    logger added exactly [evs] to its own events, and a reliable
    transport stays reliable. *)
Record step (evs : list Event) (w w' : World) : Prop := {
  st_argv : argv w' = argv w;
  st_environ : environ w' = environ w;
  st_app : main_app w' = main_app w;
  st_clock : clock w' = clock w;
  st_disable : manager_disable w' = manager_disable w;
  st_events : logger_events (trace w') = logger_events (trace w) ++ evs;
  st_reliable : reliable w -> reliable w'
}.

(** ** Facts about the string operations *)

Lemma startswith_spec (p s : string) :
  PyStr.startswith p s = true <-> exists post, s = p +:+ post.
Proof.
  revert s; induction p as [|a p IH]; intros s; simpl.
  - split; [intros _; now exists s | reflexivity].
  - destruct s as [|b s]; simpl.
    + split; [discriminate | intros [post H]; discriminate].
    + rewrite andb_true_iff, Ascii.eqb_eq, IH. split.
      * intros [-> [post ->]]. now exists post.
      * intros [post H]. injection H as -> ->. split; [reflexivity | now exists post].
Qed.

Lemma contains_unfold (needle : string) (c : ascii) (t : string) :
  PyStr.contains needle (String c t) =
  PyStr.startswith needle (String c t) || PyStr.contains needle t.
Proof. reflexivity. Qed.

Lemma contains_spec (needle hay : string) :
  PyStr.contains needle hay = true <->
  exists pre post, hay = pre +:+ needle +:+ post.
Proof.
  split.
  - induction hay as [|c t IH]; simpl; rewrite orb_true_iff.
    + intros [H | H]; [|discriminate].
      apply startswith_spec in H as [post ->]. now exists EmptyString, post.
    + intros [H | H].
      * apply startswith_spec in H as [post ->]. now exists EmptyString, post.
      * destruct (IH H) as (pre & post & ->). now exists (String c pre), post.
  - intros (pre & post & ->). induction pre as [|c pre IH].
    + assert (H : PyStr.startswith needle (needle +:+ post) = true)
        by (apply startswith_spec; now exists post).
      simpl. destruct (needle +:+ post); simpl in *; rewrite H; reflexivity.
    + change (String c pre +:+ needle +:+ post)
        with (String c (pre +:+ needle +:+ post)).
      rewrite contains_unfold, IH. apply orb_true_r.
Qed.


Lemma replace_template (uid : string) :
  PyStr.replace "$UID" uid MQTT_URI = "hbot/" +:+ uid +:+ "/log".
Proof. reflexivity. Qed.

(** ** Steps of the dispatch *)

Lemma logger_events_app (a b : list Event) :
  logger_events (a ++ b) = logger_events a ++ logger_events b.
Proof. apply List.filter_app. Qed.

Lemma app_calls_app (a b : list Event) :
  app_calls (a ++ b) = app_calls a ++ app_calls b.
Proof. apply List.filter_app. Qed.

Lemma app_calls_logger_events (tr : list Event) :
  app_calls (logger_events tr) = app_calls tr.
Proof.
  induction tr as [|e tr IH]; [reflexivity|].
  destruct e; simpl; rewrite ?IH; reflexivity.
Qed.

Lemma step_refl (w : World) : step [] w w.
Proof. constructor; auto. now rewrite app_nil_r. Qed.

Lemma step_trans (e1 e2 : list Event) (w w1 w2 : World) :
  step e1 w w1 -> step e2 w1 w2 -> step (e1 ++ e2) w w2.
Proof.
  intros [A1 B1 C1 D1 G1 E1 F1] [A2 B2 C2 D2 G2 E2 F2]. constructor.
  - congruence.
  - congruence.
  - congruence.
  - congruence.
  - congruence.
  - rewrite E2, E1. now rewrite app_assoc.
  - auto.
Qed.

Lemma step_silent (w w1 w2 : World) (evs : list Event) :
  step [] w w1 -> step evs w1 w2 -> step evs w w2.
Proof. intros H1 H2. exact (step_trans [] evs w w1 w2 H1 H2). Qed.

Lemma emit_result (self : MQTTHandler) (record : LogRecord) (w : World) :
  result_of (MQTTHandler_emit self record) w =
  match transport w with
  | Some e :: _ => Raise e
  | _ => Ret tt
  end.
Proof.
  unfold result_of, MQTTHandler_emit, bind, time_time, publish; simpl.
  destruct (transport w) as [|[e|] rest]; reflexivity.
Qed.

Lemma emit_trace (self : MQTTHandler) (record : LogRecord) (w : World) :
  trace (world_after (MQTTHandler_emit self record) w) =
  trace w ++ [EvPublish (topic (mqtt_pub self))
                {| timestamp := clock w (ticks w); msg := format record;
                   level_no := levelno record; level_name := levelname record;
                   logger_name := rec_name record |}].
Proof.
  unfold world_after, MQTTHandler_emit, bind, time_time, publish; simpl.
  destruct (transport w) as [|[e|] rest]; reflexivity.
Qed.

Lemma emit_transport (self : MQTTHandler) (record : LogRecord) (w : World) :
  transport (world_after (MQTTHandler_emit self record) w) = tail (transport w).
Proof.
  unfold world_after, MQTTHandler_emit, bind, time_time, publish; simpl.
  destruct (transport w) as [|[e|] rest] eqn:E; simpl; rewrite ?E; reflexivity.
Qed.

Lemma reliable_tail (w w' : World) :
  transport w' = tail (transport w) -> reliable w -> reliable w'.
Proof.
  unfold reliable. intros -> H. destruct (transport w); simpl; [constructor|].
  now inversion H.
Qed.

Lemma emit_step (self : MQTTHandler) (record : LogRecord) (w : World) :
  step [] w (world_after (MQTTHandler_emit self record) w).
Proof.
  constructor.
  - unfold world_after, MQTTHandler_emit, bind, time_time, publish; simpl.
    destruct (transport w) as [|[e|] rest]; reflexivity.
  - unfold world_after, MQTTHandler_emit, bind, time_time, publish; simpl.
    destruct (transport w) as [|[e|] rest]; reflexivity.
  - unfold world_after, MQTTHandler_emit, bind, time_time, publish; simpl.
    destruct (transport w) as [|[e|] rest]; reflexivity.
  - unfold world_after, MQTTHandler_emit, bind, time_time, publish; simpl.
    destruct (transport w) as [|[e|] rest]; reflexivity.
  - unfold world_after, MQTTHandler_emit, bind, time_time, publish; simpl.
    destruct (transport w) as [|[e|] rest]; reflexivity.
  - rewrite emit_trace, logger_events_app. reflexivity.
  - apply reliable_tail, emit_transport.
Qed.

Lemma emit_reliable (self : MQTTHandler) (record : LogRecord) (w : World) :
  reliable w -> result_of (MQTTHandler_emit self record) w = Ret tt.
Proof.
  intros H. rewrite emit_result. unfold reliable in H.
  destruct (transport w) as [|[e|] rest]; try reflexivity.
  inversion H; discriminate.
Qed.

Lemma handle_step (h : Handler) (record : LogRecord) (w : World) :
  step [] w (world_after (handle h record) w).
Proof.
  destruct h as [m|id lvl]; simpl.
  - apply emit_step.
  - constructor; try reflexivity; [|auto].
    unfold world_after, event; simpl. now rewrite logger_events_app.
Qed.

Lemma handle_reliable (h : Handler) (record : LogRecord) (w : World) :
  reliable w -> result_of (handle h record) w = Ret tt.
Proof.
  destruct h as [m|id lvl]; simpl; [apply emit_reliable | reflexivity].
Qed.

(** Destructuring a run into its outcome and final world. *)
Lemma run_eta {A} (c : M A) (w : World) :
  c w = (result_of c w, world_after c w).
Proof. unfold result_of, world_after. now destruct (c w). Qed.

Lemma callHandlers_step (hs : list Handler) (record : LogRecord) (w : World) :
  step [] w (world_after (callHandlers hs record) w).
Proof.
  revert w; induction hs as [|h rest IH]; intros w.
  - apply step_refl.
  - unfold world_after; simpl; unfold bind.
    set (c := if handler_level h <=? levelno record
              then handle h record else ret tt).
    assert (Hc : step [] w (world_after c w)).
    { subst c. destruct (handler_level h <=? levelno record);
        [apply handle_step | apply step_refl]. }
    rewrite (run_eta c w). destruct (result_of c w) as [[]|e]; simpl.
    + eapply step_silent; [exact Hc | apply IH].
    + exact Hc.
Qed.

Lemma callHandlers_reliable (hs : list Handler) (record : LogRecord) (w : World) :
  reliable w -> result_of (callHandlers hs record) w = Ret tt.
Proof.
  revert w; induction hs as [|h rest IH]; intros w Hw; [reflexivity|].
  unfold result_of; simpl; unfold bind.
  set (c := if handler_level h <=? levelno record
            then handle h record else ret tt).
  assert (Hr : result_of c w = Ret tt).
  { subst c. destruct (handler_level h <=? levelno record);
      [now apply handle_reliable | reflexivity]. }
  assert (Hs : step [] w (world_after c w)).
  { subst c. destruct (handler_level h <=? levelno record);
      [apply handle_step | apply step_refl]. }
  rewrite (run_eta c w), Hr. apply IH. now apply Hs.
Qed.

Lemma getEffectiveLevel_level (self : HummingbotLogger) :
  getEffectiveLevel self = level self.
Proof.
  unfold getEffectiveLevel, NOTSET. destruct (level self =? 0) eqn:H; [|reflexivity].
  apply Z.eqb_eq in H. now rewrite H.
Qed.

Lemma isEnabledFor_true (self : HummingbotLogger) (disable lvl : Z) :
  disabled self = false -> disable < lvl -> level self <= lvl ->
  isEnabledFor self disable lvl = true.
Proof.
  intros Hd Hdis Hlvl. unfold isEnabledFor. rewrite Hd, getEffectiveLevel_level.
  apply Z.leb_gt in Hdis. rewrite Hdis. now apply Z.leb_le.
Qed.

Lemma log_run (self : HummingbotLogger) (lvl : Z) (text : string) (w : World) :
  log self lvl text w =
  if isEnabledFor self (manager_disable w) lvl
  then callHandlers (handlers self) (makeRecord self lvl text)
         (with_trace w (trace w ++ [EvRecord (makeRecord self lvl text)]))
  else (Ret tt, w).
Proof.
  unfold log, bind, logging_disable.
  destruct (isEnabledFor self (manager_disable w) lvl); reflexivity.
Qed.

Lemma log_step (self : HummingbotLogger) (lvl : Z) (text : string) (w : World) :
  step (logged self (manager_disable w) lvl text) w (world_after (log self lvl text) w).
Proof.
  unfold world_after. rewrite log_run. unfold logged.
  destruct (isEnabledFor self (manager_disable w) lvl); [|apply step_refl].
  set (w1 := with_trace w (trace w ++ [EvRecord (makeRecord self lvl text)])).
  assert (H1 : step [EvRecord (makeRecord self lvl text)] w w1).
  { constructor; try reflexivity; [|auto].
    subst w1; simpl. now rewrite logger_events_app. }
  rewrite <- (app_nil_r [EvRecord _]).
  eapply step_trans; [exact H1 | apply callHandlers_step].
Qed.

Lemma log_reliable (self : HummingbotLogger) (lvl : Z) (text : string) (w : World) :
  reliable w -> result_of (log self lvl text) w = Ret tt.
Proof.
  intros Hw. unfold result_of. rewrite log_run.
  destruct (isEnabledFor self (manager_disable w) lvl); [|reflexivity].
  now apply callHandlers_reliable.
Qed.

(** ** Test mode *)

Lemma existsb_In {A} (p : A -> bool) (l : list A) :
  existsb p l = true <-> exists x, In x l /\ p x = true.
Proof. apply List.existsb_exists. Qed.

Lemma is_testing_mode_spec (args : list string) :
  is_testing_mode args = true <->
  exists arg marker, In arg args /\ In marker TESTING_TOOLS /\
                     PyStr.contains marker arg = true.
Proof.
  unfold is_testing_mode. rewrite existsb_In. split.
  - intros (marker & Hm & H). apply existsb_In in H as (arg & Ha & H).
    now exists arg, marker.
  - intros (arg & marker & Ha & Hm & H). exists marker. split; [exact Hm|].
    apply existsb_In. now exists arg.
Qed.

(** C10: test-mode detection answers true exactly when some invocation
    argument contains one of the markers nose, unittest or pytest as a
    substring; in particular an argument that merely embeds a marker
    (a path, say) switches test mode on. *)
Theorem test_mode_iff_marker_substring (args : list string) :
  (is_testing_mode args = true <->
   exists arg marker pre post,
     In arg args /\
     (marker = "nose" \/ marker = "unittest" \/ marker = "pytest")%string /\
     arg = pre +:+ marker +:+ post)
  /\ (forall before after pre post,
        is_testing_mode (before ++ (pre +:+ "nose" +:+ post) :: after) = true /\
        is_testing_mode (before ++ (pre +:+ "unittest" +:+ post) :: after) = true /\
        is_testing_mode (before ++ (pre +:+ "pytest" +:+ post) :: after) = true).
Proof.
  assert (Hiff : forall l, is_testing_mode l = true <->
            exists arg marker pre post,
              In arg l /\
              (marker = "nose" \/ marker = "unittest" \/ marker = "pytest")%string /\
              arg = pre +:+ marker +:+ post).
  { intros l. rewrite is_testing_mode_spec. split.
    - intros (arg & marker & Ha & Hm & H).
      apply contains_spec in H as (pre & post & ->).
      exists (pre +:+ marker +:+ post), marker, pre, post.
      split; [exact Ha|]. split; [|reflexivity].
      simpl in Hm. destruct Hm as [<- | [<- | [<- | []]]]; auto.
    - intros (arg & marker & pre & post & Ha & Hm & ->).
      exists (pre +:+ marker +:+ post), marker. split; [exact Ha|]. split.
      + simpl. destruct Hm as [-> | [-> | ->]]; auto.
      + apply contains_spec. now exists pre, post. }
  split; [apply Hiff|].
  intros before after pre post.
  repeat split; apply Hiff.
  - exists (pre +:+ "nose" +:+ post), "nose"%string, pre, post.
    split; [apply in_elt | split; [auto | reflexivity]].
  - exists (pre +:+ "unittest" +:+ post), "unittest"%string, pre, post.
    split; [apply in_elt | split; [auto | reflexivity]].
  - exists (pre +:+ "pytest" +:+ post), "pytest"%string, pre, post.
    split; [apply in_elt | split; [auto | reflexivity]].
Qed.

(** ** Construction *)

Lemma token_allowed (flag : option string) :
  flag ∈ MQTT_LOGGING_TOKENS <->
  exists token, flag = Some token /\
    In token ["1"; "True"; "true"; "Yes"; "Nai"; "Si"; "Da"; "sudo"]%string.
Proof.
  unfold MQTT_LOGGING_TOKENS. rewrite list_elem_of_In. simpl. split.
  - intros H.
    repeat (destruct H as [<- | H];
            [eexists; split; [reflexivity|];
             repeat (first [left; reflexivity | right])|]).
    destruct H.
  - intros (token & -> & H).
    repeat (destruct H as [<- | H];
            [repeat (first [left; reflexivity | right])|]).
    destruct H.
Qed.

Lemma MQTTHandler_init_result
    (params : option ConnectionParameters) (mqtt_topic : option string) (w : World) :
  MQTTHandler_init params mqtt_topic w =
  (Ret {| mqtt_level := NOTSET;
          mqtt_pub :=
            {| conn_params := match params with
                              | None => DefaultConnectionParameters
                              | Some p => p
                              end;
               topic := if bool_decide (mqtt_topic ∈ [Some ""%string; None])
                        then PyStr.replace "$UID"
                               (PyStr.str_of_optional (environ w !! "HBOT_UID"%string))
                               MQTT_URI
                        else PyStr.str_of_optional mqtt_topic |} |}, w).
Proof.
  unfold MQTTHandler_init, bind, os_getenv, ret.
  destruct (bool_decide (mqtt_topic ∈ [Some ""%string; None])); reflexivity.
Qed.

Lemma HummingbotLogger_init_result (nm : string) (w : World) :
  HummingbotLogger_init nm w =
  (Ret {| name := nm; level := NOTSET; disabled := false;
          handlers :=
            if bool_decide (environ w !! "HBOT_MQTT_LOGGING"%string
                              ∈ MQTT_LOGGING_TOKENS)
            then [HMQTT (default_handler w)] else [] |}, w).
Proof.
  unfold HummingbotLogger_init, bind, os_getenv.
  destruct (bool_decide _); [|reflexivity].
  rewrite MQTTHandler_init_result. reflexivity.
Qed.

(** C7: the remote handler is attached at construction exactly when the
    value of the remote-logging flag is one of the allow-listed tokens;
    any other token, or no value at all, leaves the logger without it. *)
Theorem remote_sink_iff_flag_allow_listed (nm : string) (w : World) :
  exists lg,
    result_of (HummingbotLogger_init nm) w = Ret lg /\
    name lg = nm /\
    (has_remote_sink lg = true <->
     exists token,
       environ w !! "HBOT_MQTT_LOGGING"%string = Some token /\
       In token ["1"; "True"; "true"; "Yes"; "Nai"; "Si"; "Da"; "sudo"]%string) /\
    (has_remote_sink lg = false <-> handlers lg = []).
Proof.
  unfold result_of. rewrite HummingbotLogger_init_result.
  eexists. split; [reflexivity|]. split; [reflexivity|].
  rewrite <- token_allowed. unfold has_remote_sink.
  case_bool_decide as Hflag; cbn.
  - repeat split; auto; discriminate.
  - repeat split; auto; try discriminate; try contradiction.
Qed.

(** C9: constructed without a topic of its own (the empty string or
    none), the remote handler publishes on the fixed template with its
    $UID placeholder replaced by the value of the installation
    identifier; so does the handler a logger attaches to itself. *)
Theorem default_topic_from_installation_id
    (params : option ConnectionParameters) (mqtt_topic : option string)
    (uid : string) (w : World) :
  mqtt_topic = Some ""%string \/ mqtt_topic = None ->
  environ w !! "HBOT_UID"%string = Some uid ->
  (exists h,
     result_of (MQTTHandler_init params mqtt_topic) w = Ret h /\
     topic (mqtt_pub h) = PyStr.replace "$UID" uid "hbot/$UID/log" /\
     topic (mqtt_pub h) = "hbot/" +:+ uid +:+ "/log") /\
  (forall nm lg h,
     result_of (HummingbotLogger_init nm) w = Ret lg ->
     In (HMQTT h) (handlers lg) ->
     topic (mqtt_pub h) = "hbot/" +:+ uid +:+ "/log").
Proof.
  intros Htopic Huid. split.
  - unfold result_of. rewrite MQTTHandler_init_result.
    eexists. split; [reflexivity|]. cbn [fst topic mqtt_pub]. rewrite Huid.
    rewrite bool_decide_eq_true_2.
    + split; reflexivity.
    + destruct Htopic as [-> | ->]; apply list_elem_of_In; simpl; auto.
  - intros nm lg h. unfold result_of. rewrite HummingbotLogger_init_result.
    cbn [fst]. intros [= <-]. cbn [handlers].
    case_bool_decide as Hflag.
    + intros [[= <-] | []]. unfold default_handler; cbn [topic mqtt_pub].
      rewrite Huid. reflexivity.
    + intros [].
Qed.

(** C8: the message handed to the publisher carries the record's
    formatted message, level number, level name and logger name
    unchanged, stamped with the clock reading taken during the call. *)
Theorem emit_preserves_record_fields
    (self : MQTTHandler) (record : LogRecord) (w : World) :
  exists m,
    trace (world_after (MQTTHandler_emit self record) w) =
      trace w ++ [EvPublish (topic (mqtt_pub self)) m] /\
    msg m = format record /\
    level_no m = levelno record /\
    level_name m = levelname record /\
    logger_name m = rec_name record /\
    timestamp m = clock w (ticks w) /\
    ticks (world_after (MQTTHandler_emit self record) w) = S (ticks w).
Proof.
  eexists. split; [apply emit_trace|]. simpl. repeat split.
  unfold world_after, MQTTHandler_emit, bind, time_time, publish; simpl.
  destruct (transport w) as [|[e|] rest]; reflexivity.
Qed.

(** ** The domain operations *)

Lemma app_calls_logged (self : HummingbotLogger) (disable lvl : Z) (text : string) :
  app_calls (logged self disable lvl text) = [].
Proof. unfold logged. now destruct (isEnabledFor self disable lvl). Qed.

Lemma step_app_calls (evs : list Event) (w w' : World) :
  step evs w w' -> app_calls (trace w') = app_calls (trace w) ++ app_calls evs.
Proof.
  intros H. rewrite <- (app_calls_logger_events (trace w')), (st_events _ _ _ H).
  now rewrite app_calls_app, app_calls_logger_events.
Qed.

Lemma notify_run (self : HummingbotLogger) (text : string) (w : World) :
  let w1 := world_after (log self INFO text) w in
  notify self text w =
  match result_of (log self INFO text) w with
  | Raise e => (Raise e, w1)
  | Ret _ =>
      if is_testing_mode (argv w) then (Ret tt, w1)
      else match main_app w with
           | None => (Raise (AttributeError "'NoneType' object has no attribute 'notify'"), w1)
           | Some _ =>
               (Ret tt,
                with_trace (with_ticks w1 (S (ticks w1)))
                  (trace w1 ++ [EvAppNotify (notification (clock w (ticks w1)) text)]))
           end
  end.
Proof.
  intros w1. pose proof (log_step self INFO text w) as Hs. fold w1 in Hs.
  unfold notify, bind. rewrite (run_eta (log self INFO text) w). fold w1.
  destruct (result_of (log self INFO text) w) as [[]|e]; [|reflexivity].
  unfold sys_argv. rewrite (st_argv _ _ _ Hs).
  destruct (is_testing_mode (argv w)); [reflexivity|]. cbn [negb].
  unfold main_application. rewrite (st_app _ _ _ Hs).
  destruct (main_app w); [|reflexivity].
  unfold app_notify, bind, time_time, ret, event, notification; simpl.
  rewrite (st_clock _ _ _ Hs). reflexivity.
Qed.

Lemma network_run (self : HummingbotLogger) (log_msg : string)
    (app_warning_msg : option string) (callers : list Frame) (w : World) :
  let w1 := world_after (log self NETWORK log_msg) w in
  network self log_msg app_warning_msg callers w =
  match result_of (log self NETWORK log_msg) w with
  | Raise e => (Raise e, w1)
  | Ret _ =>
      match app_warning_msg with
      | None => (Ret tt, w1)
      | Some text =>
          if is_testing_mode (argv w) then (Ret tt, w1)
          else
            let w2 := with_ticks w1 (S (ticks w1)) in
            match network_caller callers with
            | Raise e => (Raise e, w2)
            | Ret caller =>
                let a := {| aw_timestamp := clock w (ticks w1);
                            aw_logger_name := name self;
                            caller_info := caller; warning_msg := text |} in
                let w3 := world_after (log self WARNING text) w2 in
                match result_of (log self WARNING text) w2 with
                | Raise e => (Raise e, w3)
                | Ret _ =>
                    match main_app w with
                    | None => (Raise (AttributeError "'NoneType' object has no attribute 'add_application_warning'"), w3)
                    | Some _ => (Ret tt, with_trace w3 (trace w3 ++ [EvAppWarning a]))
                    end
                end
            end
      end
  end.
Proof.
  intros w1. pose proof (log_step self NETWORK log_msg w) as Hs. fold w1 in Hs.
  unfold network, bind. rewrite (run_eta (log self NETWORK log_msg) w). fold w1.
  destruct (result_of (log self NETWORK log_msg) w) as [[]|e]; [|reflexivity].
  destruct app_warning_msg as [text|]; [|reflexivity].
  unfold sys_argv. rewrite (st_argv _ _ _ Hs).
  destruct (is_testing_mode (argv w)); [reflexivity|]. cbn [negb].
  unfold time_time, lift, network_caller. rewrite (st_clock _ _ _ Hs).
  destruct (findCaller false 1 (frame_of "network" 112 :: callers)) as [caller|e];
    [|reflexivity].
  cbn [warning_msg]. unfold warning.
  set (w2 := with_ticks w1 (S (ticks w1))).
  pose proof (log_step self WARNING text w2) as Hs2.
  rewrite (run_eta (log self WARNING text) w2).
  destruct (result_of (log self WARNING text) w2) as [[]|e]; [|reflexivity].
  unfold main_application. rewrite (st_app _ _ _ Hs2).
  change (main_app w2) with (main_app w1). rewrite (st_app _ _ _ Hs).
  destruct (main_app w); reflexivity.
Qed.

(** C4: with a test-runner marker among the invocation arguments,
    neither [notify] nor [network] calls into the host application,
    whatever their arguments: the calls already made to it stay as they
    were, and each operation ends as its logging call does, also when no
    application is running. *)
Theorem no_escalation_in_test_mode
    (self : HummingbotLogger) (text log_msg : string)
    (app_warning_msg : option string) (callers : list Frame) (w : World) :
  is_testing_mode (argv w) = true ->
  (app_calls (trace (world_after (notify self text) w)) = app_calls (trace w) /\
   result_of (notify self text) w = result_of (log self INFO text) w) /\
  (app_calls (trace (world_after (network self log_msg app_warning_msg callers) w))
     = app_calls (trace w) /\
   result_of (network self log_msg app_warning_msg callers) w
     = result_of (log self NETWORK log_msg) w).
Proof.
  intros Htest. split.
  - pose proof (step_app_calls _ _ _ (log_step self INFO text w)) as Hc.
    rewrite app_calls_logged, app_nil_r in Hc.
    unfold world_after at 1, result_of at 1. rewrite notify_run, Htest.
    destruct (result_of (log self INFO text) w) as [[]|e]; cbn [fst snd];
      split; (exact Hc || reflexivity).
  - pose proof (step_app_calls _ _ _ (log_step self NETWORK log_msg w)) as Hc.
    rewrite app_calls_logged, app_nil_r in Hc.
    unfold world_after at 1, result_of at 1. rewrite network_run, Htest.
    destruct (result_of (log self NETWORK log_msg) w) as [[]|e];
      destruct app_warning_msg; cbn [fst snd];
      split; (exact Hc || reflexivity).
Qed.

(** ** The caller resolver *)

Lemma up_stacklevel_default (f : list Frame) :
  match up_stacklevel f 1 with
  | [] => f
  | _ :: _ => up_stacklevel f 1
  end = f.
Proof. destruct f; reflexivity. Qed.

Lemma findCaller_default (stack_info : bool) (callers : list Frame) :
  (has_getframe = true -> (2 <= length callers)%nat) ->
  findCaller stack_info 1 callers
  = Ret (first_external stack_info (walk_start callers)).
Proof.
  intros Hdeep. unfold findCaller, currentframe, walk_start.
  destruct has_getframe.
  - destruct callers as [|c0 [|c1 rest]];
      [specialize (Hdeep eq_refl); simpl in Hdeep; lia ..|].
    cbn [sys_getframe length Nat.ltb Nat.leb drop tail].
    now rewrite up_stacklevel_default.
  - cbn [tail]. now rewrite up_stacklevel_default.
Qed.

Lemma network_frame_is_core (line : Z) (function : string) :
  is_core (frame_of function line) = true.
Proof. unfold is_core, frame_of, _srcfile; simpl. apply String.eqb_refl. Qed.

Lemma network_caller_resolved (caller : Frame) (outer : list Frame) :
  network_caller (caller :: outer)
  = Ret (first_external false (if has_getframe then outer else caller :: outer)).
Proof.
  unfold network_caller. rewrite findCaller_default.
  - unfold walk_start. destruct has_getframe; [reflexivity|].
    cbn [first_external].
    change (String.eqb (normcase (co_filename (f_code (frame_of "network" 112))))
              _srcfile)
      with (is_core (frame_of "network" 112)).
    now rewrite network_frame_is_core.
  - intros _. simpl. lia.
Qed.

(** ** What the two operations log *)

(** C2, as the module has it: [notify] logs its message at the level the
    module imports under the name INFO.  Outside test mode, when that
    logging call has returned normally, it also hands the message,
    prefixed with the bracketed time of the call, to the notification
    surface of the host application; when the logging call raises,
    [notify] ends with that exception and hands nothing over.  The logging
    call returns normally whenever no publish fails. *)
Theorem notify_logs_at_INFO (self : HummingbotLogger) (text : string) (w : World) :
  let w1 := world_after (log self INFO text) w in
  let w' := world_after (notify self text) w in
  logger_events (trace w') =
    logger_events (trace w)
    ++ (if isEnabledFor self (manager_disable w) INFO
        then [EvRecord {| rec_name := name self; levelno := INFO;
                          levelname := getLevelName INFO; rec_msg := text |}]
        else [])
    ++ match result_of (log self INFO text) w, is_testing_mode (argv w), main_app w with
       | Ret _, false, Some _ =>
           [EvAppNotify
              ("(" +:+ Timestamp_fromtimestamp (PyStr.int_of (clock w (ticks w1)))
               +:+ ") " +:+ text)]
       | _, _, _ => []
       end
  /\ result_of (notify self text) w =
     match result_of (log self INFO text) w with
     | Raise e => Raise e
     | Ret _ =>
         if is_testing_mode (argv w) then Ret tt
         else match main_app w with
              | Some _ => Ret tt
              | None => Raise (AttributeError "'NoneType' object has no attribute 'notify'")
              end
     end
  /\ (reliable w -> result_of (log self INFO text) w = Ret tt).
Proof.
  intros w1 w'.
  pose proof (log_step self INFO text w) as Hs. fold w1 in Hs.
  assert (Hev : logger_events (trace w1) =
                logger_events (trace w)
                ++ (if isEnabledFor self (manager_disable w) INFO
                    then [EvRecord {| rec_name := name self; levelno := INFO;
                                      levelname := getLevelName INFO; rec_msg := text |}]
                    else []))
    by apply (st_events _ _ _ Hs).
  assert (Hw' : w' = snd (notify self text w)) by reflexivity.
  assert (Hr' : result_of (notify self text) w = fst (notify self text w)) by reflexivity.
  rewrite Hr'. clearbody w'. subst w'. rewrite notify_run. fold w1.
  split; [|split; [|apply log_reliable]].
  - destruct (result_of (log self INFO text) w) as [[]|e];
      [destruct (is_testing_mode (argv w)); [|destruct (main_app w)]|];
      cbn [snd trace with_trace];
      rewrite ?logger_events_app, Hev, <- ?app_assoc, ?app_nil_r; reflexivity.
  - destruct (result_of (log self INFO text) w) as [[]|e];
      [destruct (is_testing_mode (argv w)); [|destruct (main_app w)]|];
      reflexivity.
Qed.

(** C3, as the module has it: [network] always logs its message at the
    NETWORK level, and nothing more unless a warning message is given,
    test mode is off and that logging call has returned normally (when it
    raises, [network] ends with its exception).  In that case a location
    is obtained from the caller resolver, the warning record is built
    from the time, the logger's name, that location and the message, the
    message is logged at WARNING level, and when this second logging call
    has returned normally the record is handed to the warning surface of
    the host application.  Both logging calls return normally whenever no
    publish fails. *)
Theorem network_logs_and_escalates
    (self : HummingbotLogger) (log_msg : string) (app_warning_msg : option string)
    (caller : Frame) (outer : list Frame) (w : World) :
  let callers := caller :: outer in
  let w1 := world_after (log self NETWORK log_msg) w in
  let w2 := with_ticks w1 (S (ticks w1)) in
  let w' := world_after (network self log_msg app_warning_msg callers) w in
  let network_record :=
    if isEnabledFor self (manager_disable w) NETWORK
    then [EvRecord {| rec_name := name self; levelno := NETWORK;
                      levelname := getLevelName NETWORK; rec_msg := log_msg |}]
    else [] in
  (exists rest,
     logger_events (trace w') = logger_events (trace w) ++ network_record ++ rest) /\
  (app_warning_msg = None \/ is_testing_mode (argv w) = true \/
   (exists e, result_of (log self NETWORK log_msg) w = Raise e) ->
   w' = w1 /\
   result_of (network self log_msg app_warning_msg callers) w
   = result_of (log self NETWORK log_msg) w) /\
  (forall text,
     app_warning_msg = Some text ->
     is_testing_mode (argv w) = false ->
     result_of (log self NETWORK log_msg) w = Ret tt ->
     exists location,
       network_caller callers = Ret location /\
       logger_events (trace w') =
         logger_events (trace w) ++ network_record
         ++ (if isEnabledFor self (manager_disable w) WARNING
             then [EvRecord {| rec_name := name self; levelno := WARNING;
                               levelname := getLevelName WARNING; rec_msg := text |}]
             else [])
         ++ match result_of (log self WARNING text) w2, main_app w with
            | Ret _, Some _ =>
                [EvAppWarning
                   {| aw_timestamp := clock w (ticks w1);
                      aw_logger_name := name self;
                      caller_info := location;
                      warning_msg := text |}]
            | _, _ => []
            end /\
       result_of (network self log_msg app_warning_msg callers) w =
         match result_of (log self WARNING text) w2 with
         | Raise e => Raise e
         | Ret _ =>
             match main_app w with
             | Some _ => Ret tt
             | None => Raise (AttributeError "'NoneType' object has no attribute 'add_application_warning'")
             end
         end) /\
  (reliable w ->
   result_of (log self NETWORK log_msg) w = Ret tt /\
   forall text, result_of (log self WARNING text) w2 = Ret tt).
Proof.
  intros callers w1 w2 w' network_record.
  pose proof (log_step self NETWORK log_msg w) as Hs. fold w1 in Hs.
  assert (Hev : logger_events (trace w1) = logger_events (trace w) ++ network_record)
    by apply (st_events _ _ _ Hs).
  assert (Hev2 : forall text,
            logger_events (trace (world_after (log self WARNING text) w2)) =
            logger_events (trace w) ++ network_record
            ++ (if isEnabledFor self (manager_disable w) WARNING
                then [EvRecord {| rec_name := name self; levelno := WARNING;
                                  levelname := getLevelName WARNING; rec_msg := text |}]
                else [])).
  { intros text. rewrite (st_events _ _ _ (log_step self WARNING text w2)).
    change (trace w2) with (trace w1). change (manager_disable w2) with (manager_disable w1).
    rewrite Hev, (st_disable _ _ _ Hs), <- app_assoc. reflexivity. }
  assert (Hcaller : network_caller callers
                    = Ret (first_external false
                             (if has_getframe then outer else caller :: outer)))
    by apply network_caller_resolved.
  assert (Hw' : w' = snd (network self log_msg app_warning_msg callers w)) by reflexivity.
  assert (Hr' : result_of (network self log_msg app_warning_msg callers) w
                = fst (network self log_msg app_warning_msg callers w)) by reflexivity.
  rewrite Hr'. clearbody w'. subst w'. rewrite network_run. fold w1. cbv zeta. fold w2.
  rewrite Hcaller.
  split; [|split; [|split]].
  - destruct (result_of (log self NETWORK log_msg) w) as [[]|e];
      [|exists []; cbn [snd]; now rewrite app_nil_r].
    destruct app_warning_msg as [text|];
      [|exists []; cbn [snd]; now rewrite app_nil_r].
    destruct (is_testing_mode (argv w));
      [exists []; cbn [snd]; now rewrite app_nil_r|].
    destruct (result_of (log self WARNING text) w2) as [[]|e];
      [destruct (main_app w)|]; cbn [snd trace with_trace];
      rewrite ?logger_events_app, Hev2, <- ?app_assoc; eexists; reflexivity.
  - intros [-> | [Htest | [e He]]].
    + destruct (result_of (log self NETWORK log_msg) w) as [[]|e]; split; reflexivity.
    + rewrite Htest.
      destruct (result_of (log self NETWORK log_msg) w) as [[]|e];
        destruct app_warning_msg; split; reflexivity.
    + rewrite He. split; reflexivity.
  - intros text -> Htest Hlog. rewrite Hlog, Htest.
    eexists. split; [reflexivity|].
    destruct (result_of (log self WARNING text) w2) as [[]|e];
      [destruct (main_app w)|]; cbn [fst snd trace with_trace];
      rewrite ?logger_events_app, Hev2, <- ?app_assoc, ?app_nil_r; split; reflexivity.
  - intros Hrel. split; [now apply log_reliable|].
    intros text. apply log_reliable. apply (st_reliable _ _ _ Hs), Hrel.
Qed.

(** ** A failing transport *)

Lemma callHandlers_failure
    (pre post : list Handler) (self : MQTTHandler) (record : LogRecord)
    (e : Exn) (rest : list (option Exn)) (w : World) :
  Forall (fun h => is_std h = true) pre ->
  mqtt_level self <= levelno record ->
  transport w = Some e :: rest ->
  result_of (callHandlers (pre ++ HMQTT self :: post) record) w = Raise e /\
  transport (world_after (callHandlers (pre ++ HMQTT self :: post) record) w) = rest.
Proof.
  intros Hpre Hlvl. revert w. induction Hpre as [|h pre Hh Hpre IH]; intros w Hw.
  - cbn [app callHandlers handler_level]. unfold result_of, world_after, bind.
    apply Z.leb_le in Hlvl. rewrite Hlvl. cbn [handle].
    rewrite (run_eta (MQTTHandler_emit self record) w), emit_result, Hw.
    cbn [fst snd]. rewrite emit_transport, Hw. now split.
  - destruct h as [m|id lvl]; [discriminate|].
    cbn [app callHandlers handler_level handle]. unfold result_of, world_after, bind.
    destruct (lvl <=? levelno record); cbn [event ret fst snd];
      apply IH; exact Hw.
Qed.

(** C1, as the module has it: [emit] has no handler for a publish
    failure: it ends exactly as the publish does, normally when the
    publish returns and with the publish's exception when it raises.  So
    a failure reaches the caller of [emit] and, for a record that the
    logger and the handler admit, the logging call that triggered the
    emission; the logger itself is left usable, and a later logging call
    returns normally once the transport publishes again. *)
Theorem publish_failure_propagates
    (self : MQTTHandler) (record : LogRecord) (lg : HummingbotLogger)
    (pre post : list Handler) (lvl : Z) (text : string)
    (e : Exn) (rest : list (option Exn)) (w : World) :
  transport w = Some e :: rest ->
  Forall (fun o => o = None) rest ->
  handlers lg = pre ++ HMQTT self :: post ->
  Forall (fun h => is_std h = true) pre ->
  disabled lg = false ->
  manager_disable w < lvl ->
  level lg <= lvl ->
  mqtt_level self <= lvl ->
  (forall any_record w0,
     result_of (MQTTHandler_emit self any_record) w0 =
     match transport w0 with
     | Some failure :: _ => Raise failure
     | _ => Ret tt
     end) /\
  result_of (MQTTHandler_emit self record) w = Raise e /\
  result_of (log lg lvl text) w = Raise e /\
  (forall lvl' text',
     result_of (log lg lvl' text') (world_after (log lg lvl text) w) = Ret tt).
Proof.
  intros Hw Hrest Hhs Hpre Hen Hdis Hlg Hself.
  split; [intros any_record w0; apply emit_result|].
  split; [rewrite emit_result, Hw; reflexivity|].
  set (w0 := with_trace w (trace w ++ [EvRecord (makeRecord lg lvl text)])).
  destruct (callHandlers_failure pre post self (makeRecord lg lvl text) e rest w0
              Hpre Hself Hw) as [Hres Htr].
  assert (Hrun : log lg lvl text w
                 = callHandlers (handlers lg) (makeRecord lg lvl text) w0).
  { rewrite log_run, isEnabledFor_true by assumption. reflexivity. }
  split.
  - unfold result_of. rewrite Hrun, Hhs. exact Hres.
  - intros lvl' text'. apply log_reliable.
    unfold reliable, world_after. rewrite Hrun, Hhs.
    unfold world_after in Htr. rewrite Htr. exact Hrest.
Qed.

(** ** Where the resolver looks *)

Lemma first_external_all_core (stack_info : bool) (f : list Frame) :
  Forall (fun fr => is_core fr = true) f ->
  first_external stack_info f = unknown_caller.
Proof.
  induction 1 as [|fr f Hfr _ IH]; [reflexivity|].
  cbn [first_external]. unfold is_core in Hfr. now rewrite Hfr.
Qed.

Lemma first_external_spec (stack_info : bool) (f : list Frame) :
  (exists skipped fr rest,
     f = skipped ++ fr :: rest /\
     Forall (fun x => is_core x = true) skipped /\
     is_core fr = false /\
     first_external stack_info f = location stack_info (fr :: rest))
  \/ (Forall (fun x => is_core x = true) f /\
      first_external stack_info f = unknown_caller).
Proof.
  induction f as [|fr f IH].
  - right. split; [constructor | reflexivity].
  - destruct (is_core fr) eqn:Hfr.
    + cbn [first_external]. unfold is_core in Hfr. rewrite Hfr. fold (is_core fr) in Hfr.
      destruct IH as [(skipped & fr' & rest & -> & Hsk & Hfr' & Heq) | [Hall Heq]].
      * left. exists (fr :: skipped), fr', rest.
        repeat split; [now constructor | exact Hfr' | exact Heq].
      * right. split; [now constructor | exact Heq].
    + left. exists [], fr, f. repeat split; [constructor | exact Hfr |].
      cbn [first_external location]. unfold is_core in Hfr. now rewrite Hfr.
Qed.

Lemma location_external (stack_info : bool) (fr : Frame) (rest : list Frame) :
  is_core fr = false ->
  normcase (location stack_info (fr :: rest)).1.1.1 <> _srcfile.
Proof.
  unfold is_core. cbn [location fst]. intros H Heq.
  apply String.eqb_neq in H. contradiction.
Qed.

(** What the resolver returns is never the location of a frame of the
    logging core's own file: on a stack deep enough for it to return, the
    location is the sentinel or that of a frame outside the file.  From
    the frame its walk starts at (with [sys._getframe], the third frame
    above its own) the frames of the core's file are skipped, and the
    first frame outside it gives the file, line and function, or there is
    none and the sentinel is returned. *)
Theorem findCaller_skips_core_frames (stack_info : bool) (callers : list Frame) :
  (has_getframe = true -> (2 <= length callers)%nat) ->
  exists loc,
    findCaller stack_info 1 callers = Ret loc /\
    (loc = unknown_caller \/ normcase loc.1.1.1 <> _srcfile) /\
    ((exists skipped fr rest,
        (if has_getframe then drop 2 callers else callers) = skipped ++ fr :: rest /\
        Forall (fun x => is_core x = true) skipped /\
        is_core fr = false /\
        loc = (co_filename (f_code fr), f_lineno fr, co_name (f_code fr),
               if stack_info then Some (stack_text (fr :: rest)) else None))
     \/ (Forall (fun x => is_core x = true)
                (if has_getframe then drop 2 callers else callers) /\
         loc = unknown_caller)).
Proof.
  intros Hdeep. rewrite (findCaller_default _ _ Hdeep).
  eexists. split; [reflexivity|].
  change (if has_getframe then drop 2 callers else callers) with (walk_start callers).
  destruct (first_external_spec stack_info (walk_start callers))
    as [(skipped & fr & rest & Hsplit & Hsk & Hfr & Heq) | [Hall Heq]].
  - split.
    + right. rewrite Heq. now apply location_external.
    + left. exists skipped, fr, rest. repeat split; try assumption.
  - split; [now left|]. right. now split.
Qed.

Lemma up_stacklevel_suffix (f : list Frame) (stacklevel : Z) :
  exists k, up_stacklevel f stacklevel = drop k f.
Proof.
  revert stacklevel; induction f as [|fr f IH]; intros stacklevel.
  - now exists O.
  - cbn [up_stacklevel]. destruct (1 <? stacklevel).
    + destruct (IH (stacklevel - 1)) as [k Hk]. exists (S k). exact Hk.
    + now exists O.
Qed.

(** C6, as the module has it: the resolver returns, for every stack
    information flag and stack level, whenever at least two frames lie
    above its own (or the interpreter has no [sys._getframe]); and when
    every frame from the start of its walk on belongs to the logging
    core, what it returns is the sentinel location. *)
Theorem findCaller_total_on_deep_stacks
    (stack_info : bool) (stacklevel : Z) (callers : list Frame) :
  (has_getframe = true -> (2 <= length callers)%nat) ->
  exists loc,
    findCaller stack_info stacklevel callers = Ret loc /\
    (Forall (fun x => is_core x = true)
            (if has_getframe then drop 2 callers else callers) ->
     loc = ("(unknown file)"%string, 0, "(unknown function)"%string, None)).
Proof.
  intros Hdeep.
  assert (Hrun : findCaller stack_info stacklevel callers =
            Ret (first_external stack_info
                   (match up_stacklevel (walk_start callers) stacklevel with
                    | [] => walk_start callers
                    | _ :: _ => up_stacklevel (walk_start callers) stacklevel
                    end))).
  { unfold findCaller, currentframe, walk_start. destruct has_getframe.
    - destruct callers as [|c0 [|c1 rest]];
        [specialize (Hdeep eq_refl); simpl in Hdeep; lia ..|].
      reflexivity.
    - reflexivity. }
  rewrite Hrun. eexists. split; [reflexivity|].
  change (if has_getframe then drop 2 callers else callers) with (walk_start callers).
  intros Hall. apply first_external_all_core.
  destruct (up_stacklevel_suffix (walk_start callers) stacklevel) as [k Hk].
  destruct (up_stacklevel (walk_start callers) stacklevel) eqn:Hup; [exact Hall|].
  rewrite Hk. now apply Forall_drop.
Qed.

(** ** More on test mode and construction *)

(** Test-mode detection of a concatenated argument list is the
    disjunction of the detections of its parts, and an empty list is not
    test mode: arguments added to a command line never switch test mode
    off, and their order does not matter. *)
Theorem is_testing_mode_app (a b : list string) :
  is_testing_mode (a ++ b) = is_testing_mode a || is_testing_mode b
  /\ is_testing_mode (b ++ a) = is_testing_mode (a ++ b)
  /\ is_testing_mode [] = false.
Proof.
  assert (H : forall x y, is_testing_mode (x ++ y)
                          = is_testing_mode x || is_testing_mode y).
  { intros x y. unfold is_testing_mode, TESTING_TOOLS; cbn [existsb].
    rewrite !existsb_app.
    destruct (existsb _ x), (existsb _ x), (existsb _ x),
             (existsb _ y), (existsb _ y), (existsb _ y); reflexivity. }
  split; [apply H|]. split; [|reflexivity].
  rewrite !H. apply orb_comm.
Qed.

(** A topic of its own, not empty, is used as it is: neither the template
    nor the installation identifier plays a part, and building the handler
    leaves the world as it was. *)
Theorem explicit_topic_used_verbatim
    (params : option ConnectionParameters) (tp : string) (w : World) :
  tp <> ""%string ->
  exists h,
    MQTTHandler_init params (Some tp) w = (Ret h, w) /\
    topic (mqtt_pub h) = tp /\
    mqtt_level h = 0.
Proof.
  intros Htp. rewrite MQTTHandler_init_result. eexists. split; [reflexivity|].
  cbn [topic mqtt_pub mqtt_level]. split; [|reflexivity].
  rewrite bool_decide_eq_false_2; [reflexivity|].
  rewrite list_elem_of_In. simpl. intros [H | [H | []]]; congruence.
Qed.

(** With no installation identifier in the environment, the default topic
    carries the text None in the identifier's place. *)
Theorem default_topic_without_installation_id
    (params : option ConnectionParameters) (mqtt_topic : option string) (w : World) :
  mqtt_topic = Some ""%string \/ mqtt_topic = None ->
  environ w !! "HBOT_UID"%string = None ->
  exists h,
    MQTTHandler_init params mqtt_topic w = (Ret h, w) /\
    topic (mqtt_pub h) = "hbot/None/log"%string.
Proof.
  intros Htopic Huid. rewrite MQTTHandler_init_result. eexists.
  split; [reflexivity|]. cbn [topic mqtt_pub]. rewrite Huid.
  rewrite bool_decide_eq_true_2; [reflexivity|].
  destruct Htopic as [-> | ->]; apply list_elem_of_In; simpl; auto.
Qed.

Lemma emit_run (self : MQTTHandler) (record : LogRecord) (w : World) :
  MQTTHandler_emit self record w =
  (match transport w with
   | Some e :: _ => Raise e
   | _ => Ret tt
   end,
   world_after (MQTTHandler_emit self record) w).
Proof. rewrite (run_eta (MQTTHandler_emit self record) w) at 1. now rewrite emit_result. Qed.

(** A logger built for a class while the remote-logging flag holds an
    allow-listed token ships every record of a level that is 0 or more
    and above the disable threshold of the logging module (0 unless
    raised): a logging call on it dispatches one record under the class's
    dotted name and hands the publisher one message, on the default topic
    of the installation, with that name, level and text; the call ends as
    the publish does. *)
Theorem fresh_logger_ships_every_record
    (model_class : PyClass) (lvl : Z) (text token uid : string) (w : World) :
  environ w !! "HBOT_MQTT_LOGGING"%string = Some token ->
  In token ["1"; "True"; "true"; "Yes"; "Nai"; "Si"; "Da"; "sudo"]%string ->
  environ w !! "HBOT_UID"%string = Some uid ->
  manager_disable w < lvl ->
  0 <= lvl ->
  let nm := logger_name_for_class model_class in
  let record := {| rec_name := nm; levelno := lvl;
                   levelname := getLevelName lvl; rec_msg := text |} in
  trace (world_after (construct_and_log nm lvl text) w) =
    trace w ++
    [EvRecord record;
     EvPublish ("hbot/" +:+ uid +:+ "/log")
       {| timestamp := clock w (ticks w); msg := format record;
          level_no := lvl; level_name := getLevelName lvl;
          logger_name := cls_module model_class +:+ "." +:+ cls_qualname model_class |}]
  /\ result_of (construct_and_log nm lvl text) w =
     match transport w with
     | Some e :: _ => Raise e
     | _ => Ret tt
     end.
Proof.
  intros Hflag Htoken Huid Hdis Hlvl nm record.
  assert (Hallowed : environ w !! "HBOT_MQTT_LOGGING"%string ∈ MQTT_LOGGING_TOKENS)
    by (apply token_allowed; eauto).
  unfold world_after, result_of, construct_and_log, bind.
  rewrite HummingbotLogger_init_result, (bool_decide_eq_true_2 _ Hallowed).
  rewrite log_run, isEnabledFor_true by (try reflexivity; assumption).
  apply Z.leb_le in Hlvl.
  cbn [callHandlers handlers handler_level default_handler mqtt_level].
  unfold NOTSET. cbn [makeRecord levelno name]. rewrite Hlvl. cbn [handle].
  unfold bind. rewrite emit_run. cbn [transport with_trace].
  destruct (transport w) as [|[e|] rest] eqn:Ht; cbn [fst snd ret];
    rewrite emit_trace; unfold default_handler;
    cbn [trace with_trace clock ticks topic mqtt_pub];
    rewrite Huid, <- app_assoc; split; reflexivity.
Qed.


(** ** Filtering and failure in the two domain operations *)

Lemma log_filtered (self : HummingbotLogger) (lvl : Z) (text : string) (w : World) :
  lvl < level self -> log self lvl text w = (Ret tt, w).
Proof.
  intros H. rewrite log_run. unfold isEnabledFor. rewrite getEffectiveLevel_level.
  apply Z.leb_gt in H. rewrite H.
  destruct (disabled self); [reflexivity|].
  now destruct (lvl <=? manager_disable w).
Qed.

(** The notification does not depend on the logger's threshold: when the
    level of the logger filters the INFO record out, [notify] outside
    test mode touches no handler and no transport, whatever state the
    broker is in, and still hands the stamped message to the host
    application. *)
Theorem notify_reaches_application_when_filtered
    (self : HummingbotLogger) (text : string) (w : World) :
  INFO < level self ->
  is_testing_mode (argv w) = false ->
  main_app w <> None ->
  let w' := world_after (notify self text) w in
  result_of (notify self text) w = Ret tt /\
  trace w' =
    trace w ++
    [EvAppNotify ("(" +:+ Timestamp_fromtimestamp (PyStr.int_of (clock w (ticks w)))
                  +:+ ") " +:+ text)] /\
  transport w' = transport w.
Proof.
  intros Hlvl Htest Happ.
  unfold world_after at 1, result_of at 1. rewrite notify_run.
  unfold result_of, world_after. rewrite (log_filtered _ _ _ _ Hlvl), Htest.
  cbn [fst snd]. destruct (main_app w); [|contradiction].
  repeat split; reflexivity.
Qed.

(** Nor does the escalation: with the logger's level above NETWORK and
    WARNING, [network] with a warning message outside test mode dispatches
    no record and publishes nothing, and the host application still
    receives the warning, stamped with the first clock reading and with
    the location resolved from the caller's caller on. *)
Theorem network_escalates_when_filtered
    (self : HummingbotLogger) (log_msg text : string)
    (caller : Frame) (outer : list Frame) (w : World) :
  NETWORK < level self ->
  WARNING < level self ->
  is_testing_mode (argv w) = false ->
  main_app w <> None ->
  let w' := world_after (network self log_msg (Some text) (caller :: outer)) w in
  result_of (network self log_msg (Some text) (caller :: outer)) w = Ret tt /\
  trace w' =
    trace w ++
    [EvAppWarning
       {| aw_timestamp := clock w (ticks w);
          aw_logger_name := name self;
          caller_info :=
            first_external false (if has_getframe then outer else caller :: outer);
          warning_msg := text |}] /\
  transport w' = transport w.
Proof.
  intros Hnet Hwarn Htest Happ.
  unfold world_after at 1, result_of at 1. rewrite network_run.
  unfold result_of, world_after. rewrite (log_filtered _ _ _ _ Hnet), Htest.
  cbn [fst snd]. rewrite network_caller_resolved. cbv zeta.
  rewrite (log_filtered _ _ _ _ Hwarn). cbn [fst snd].
  destruct (main_app w); [|contradiction].
  repeat split; reflexivity.
Qed.

Lemma callHandlers_failure_trace
    (pre post : list Handler) (self : MQTTHandler) (record : LogRecord)
    (e : Exn) (rest : list (option Exn)) (w : World) :
  Forall (fun h => is_std h = true) pre ->
  mqtt_level self <= levelno record ->
  transport w = Some e :: rest ->
  trace (world_after (callHandlers (pre ++ HMQTT self :: post) record) w) =
  trace w ++ std_deliveries pre record ++
  [EvPublish (topic (mqtt_pub self))
     {| timestamp := clock w (ticks w); msg := format record;
        level_no := levelno record; level_name := levelname record;
        logger_name := rec_name record |}].
Proof.
  intros Hpre Hlvl. revert w. induction Hpre as [|h pre Hh Hpre IH]; intros w Hw.
  - cbn [app callHandlers handler_level std_deliveries flat_map]. unfold world_after, bind.
    apply Z.leb_le in Hlvl. rewrite Hlvl. cbn [handle].
    rewrite emit_run, Hw. cbn [snd]. apply emit_trace.
  - destruct h as [m|id lvl]; [discriminate|].
    cbn [app callHandlers handler_level handle std_deliveries flat_map].
    fold (std_deliveries pre record).
    unfold world_after, bind.
    destruct (lvl <=? levelno record); cbn [event ret fst snd].
    + fold (world_after (callHandlers (pre ++ HMQTT self :: post) record)
              (with_trace w (trace w ++ [EvHandled id record]))).
      rewrite IH by exact Hw. cbn [trace with_trace clock ticks].
      now rewrite <- !app_assoc.
    + fold (world_after (callHandlers (pre ++ HMQTT self :: post) record) w).
      now rewrite IH by exact Hw.
Qed.

Lemma log_failure
    (lg : HummingbotLogger) (self : MQTTHandler) (pre post : list Handler)
    (lvl : Z) (text : string) (e : Exn) (rest : list (option Exn)) (w : World) :
  transport w = Some e :: rest ->
  handlers lg = pre ++ HMQTT self :: post ->
  Forall (fun h => is_std h = true) pre ->
  disabled lg = false ->
  manager_disable w < lvl ->
  level lg <= lvl ->
  mqtt_level self <= lvl ->
  result_of (log lg lvl text) w = Raise e /\
  trace (world_after (log lg lvl text) w) =
    trace w ++ [EvRecord (makeRecord lg lvl text)]
    ++ std_deliveries pre (makeRecord lg lvl text)
    ++ [EvPublish (topic (mqtt_pub self))
          {| timestamp := clock w (ticks w); msg := format (makeRecord lg lvl text);
             level_no := lvl; level_name := getLevelName lvl;
             logger_name := name lg |}].
Proof.
  intros Hw Hhs Hpre Hen Hdis Hlg Hself.
  set (record := makeRecord lg lvl text).
  set (w0 := with_trace w (trace w ++ [EvRecord record])).
  assert (Hrun : log lg lvl text w = callHandlers (handlers lg) record w0).
  { rewrite log_run, isEnabledFor_true by assumption. reflexivity. }
  unfold result_of, world_after. rewrite Hrun, Hhs. split.
  - exact (proj1 (callHandlers_failure pre post self record e rest w0 Hpre Hself Hw)).
  - fold (world_after (callHandlers (pre ++ HMQTT self :: post) record) w0).
    rewrite (callHandlers_failure_trace pre post self record e rest w0 Hpre Hself Hw).
    subst w0. cbn [trace with_trace clock ticks]. now rewrite <- !app_assoc.
Qed.

(** When the publish of the remote handler fails on a record that the
    logger and the handler admit, the handlers attached behind it are not
    reached: the trace of the logging call ends with the attempted
    publish, after the record and what the standard handlers in front
    received. *)
Theorem handlers_behind_failed_publish_not_reached
    (lg : HummingbotLogger) (self : MQTTHandler) (pre post : list Handler)
    (lvl : Z) (text : string) (e : Exn) (rest : list (option Exn)) (w : World) :
  transport w = Some e :: rest ->
  handlers lg = pre ++ HMQTT self :: post ->
  Forall (fun h => is_std h = true) pre ->
  disabled lg = false ->
  manager_disable w < lvl ->
  level lg <= lvl ->
  mqtt_level self <= lvl ->
  let record := {| rec_name := name lg; levelno := lvl;
                   levelname := getLevelName lvl; rec_msg := text |} in
  trace (world_after (log lg lvl text) w) =
    trace w ++ [EvRecord record] ++ std_deliveries pre record
    ++ [EvPublish (topic (mqtt_pub self))
          {| timestamp := clock w (ticks w); msg := format record;
             level_no := lvl; level_name := getLevelName lvl;
             logger_name := name lg |}].
Proof.
  intros Hw Hhs Hpre Hen Hdis Hlg Hself record.
  exact (proj2 (log_failure lg self pre post lvl text e rest w
                  Hw Hhs Hpre Hen Hdis Hlg Hself)).
Qed.

(** A failing remote handler costs the user the warning: when the publish
    of the NETWORK record (a record the logger and the handler admit)
    raises, [network] ends with that exception
    before anything is escalated, also outside test mode and with a
    warning message; the host application is not called and no WARNING
    record is dispatched. *)
Theorem publish_failure_suppresses_warning
    (self : HummingbotLogger) (h : MQTTHandler) (pre post : list Handler)
    (log_msg : string) (app_warning_msg : option string) (callers : list Frame)
    (e : Exn) (rest : list (option Exn)) (w : World) :
  transport w = Some e :: rest ->
  handlers self = pre ++ HMQTT h :: post ->
  Forall (fun x => is_std x = true) pre ->
  disabled self = false ->
  manager_disable w < NETWORK ->
  level self <= NETWORK ->
  mqtt_level h <= NETWORK ->
  let w' := world_after (network self log_msg app_warning_msg callers) w in
  result_of (network self log_msg app_warning_msg callers) w = Raise e /\
  app_calls (trace w') = app_calls (trace w) /\
  logger_events (trace w') =
    logger_events (trace w)
    ++ [EvRecord {| rec_name := name self; levelno := NETWORK;
                    levelname := getLevelName NETWORK; rec_msg := log_msg |}].
Proof.
  intros Hw Hhs Hpre Hen Hdis Hlg Hh.
  destruct (log_failure self h pre post NETWORK log_msg e rest w
              Hw Hhs Hpre Hen Hdis Hlg Hh) as [Hres _].
  pose proof (log_step self NETWORK log_msg w) as Hs.
  unfold world_after at 1, result_of at 1. rewrite network_run, Hres. cbn [fst snd].
  split; [reflexivity|]. split.
  - rewrite (step_app_calls _ _ _ Hs), app_calls_logged. apply app_nil_r.
  - rewrite (st_events _ _ _ Hs). unfold logged.
    now rewrite isEnabledFor_true by assumption.
Qed.

(** Likewise for [notify]: when the publish of the INFO record (a record
    the logger and the handler admit) raises, the host application is not
    notified. *)
Theorem publish_failure_suppresses_notification
    (self : HummingbotLogger) (h : MQTTHandler) (pre post : list Handler)
    (text : string) (e : Exn) (rest : list (option Exn)) (w : World) :
  transport w = Some e :: rest ->
  handlers self = pre ++ HMQTT h :: post ->
  Forall (fun x => is_std x = true) pre ->
  disabled self = false ->
  manager_disable w < INFO ->
  level self <= INFO ->
  mqtt_level h <= INFO ->
  let w' := world_after (notify self text) w in
  result_of (notify self text) w = Raise e /\
  app_calls (trace w') = app_calls (trace w) /\
  logger_events (trace w') =
    logger_events (trace w)
    ++ [EvRecord {| rec_name := name self; levelno := INFO;
                    levelname := getLevelName INFO; rec_msg := text |}].
Proof.
  intros Hw Hhs Hpre Hen Hdis Hlg Hh.
  destruct (log_failure self h pre post INFO text e rest w
              Hw Hhs Hpre Hen Hdis Hlg Hh) as [Hres _].
  pose proof (log_step self INFO text w) as Hs.
  unfold world_after at 1, result_of at 1. rewrite notify_run, Hres. cbn [fst snd].
  split; [reflexivity|]. split.
  - rewrite (step_app_calls _ _ _ Hs), app_calls_logged. apply app_nil_r.
  - rewrite (st_events _ _ _ Hs). unfold logged.
    now rewrite isEnabledFor_true by assumption.
Qed.

Lemma callHandlers_carries (hs : list Handler) (record : LogRecord) (w : World) :
  exists new,
    trace (world_after (callHandlers hs record) w) = trace w ++ new /\
    Forall (carries record) new.
Proof.
  revert w; induction hs as [|h hs IH]; intros w.
  - exists []. split; [symmetry; apply app_nil_r | constructor].
  - unfold world_after; cbn [callHandlers]; unfold bind.
    set (c := if handler_level h <=? levelno record
              then handle h record else ret tt).
    assert (Hc : exists new, trace (world_after c w) = trace w ++ new /\
                             Forall (carries record) new).
    { subst c. destruct (handler_level h <=? levelno record).
      - destruct h as [m|id lvl]; cbn [handle].
        + eexists. split; [apply emit_trace|].
          constructor; [|constructor]. cbn. repeat split.
        + eexists. split; [reflexivity|]. constructor; [reflexivity|constructor].
      - exists []. split; [symmetry; apply app_nil_r | constructor]. }
    destruct Hc as (new1 & Ht1 & Hn1).
    rewrite (run_eta c w). destruct (result_of c w) as [[]|e]; cbn [snd].
    + destruct (IH (world_after c w)) as (new2 & Ht2 & Hn2).
      exists (new1 ++ new2). split.
      * unfold world_after in Ht2 at 1. rewrite Ht2, Ht1. now rewrite app_assoc.
      * apply Forall_app. now split.
    + now exists new1.
Qed.

(** A logging call only appends to the trace, and everything it appends
    is the dispatched record itself or a handler's copy of it: every
    message handed to a publisher carries the logger's name, the level of
    the call with its name, and the formatted record; the host
    application is never called. *)
Theorem log_events_carry_the_record
    (self : HummingbotLogger) (lvl : Z) (text : string) (w : World) :
  exists new,
    trace (world_after (log self lvl text) w) = trace w ++ new /\
    Forall (fun e =>
              match e with
              | EvRecord r | EvHandled _ r =>
                  r = {| rec_name := name self; levelno := lvl;
                         levelname := getLevelName lvl; rec_msg := text |}
              | EvPublish _ m =>
                  msg m = format {| rec_name := name self; levelno := lvl;
                                    levelname := getLevelName lvl; rec_msg := text |} /\
                  level_no m = lvl /\ level_name m = getLevelName lvl /\
                  logger_name m = name self
              | EvAppNotify _ | EvAppWarning _ => False
              end) new.
Proof.
  unfold world_after. rewrite log_run.
  destruct (isEnabledFor self (manager_disable w) lvl).
  - set (record := makeRecord self lvl text).
    set (w0 := with_trace w (trace w ++ [EvRecord record])).
    destruct (callHandlers_carries (handlers self) record w0) as (new & Ht & Hn).
    exists (EvRecord record :: new). split.
    + unfold world_after in Ht. rewrite Ht. subst w0. cbn [trace with_trace].
      now rewrite <- app_assoc.
    + constructor; [reflexivity|]. exact Hn.
  - exists []. split; [symmetry; apply app_nil_r | constructor].
Qed.

(** ** More on the caller resolver *)

Lemma findCaller_run (stack_info : bool) (stacklevel : Z) (callers : list Frame) :
  findCaller stack_info stacklevel callers =
  if has_getframe && (length callers <? 2)%nat
  then Raise (ValueError "call stack is not deep enough")
  else Ret (first_external stack_info
              (match up_stacklevel (walk_start callers) stacklevel with
               | [] => walk_start callers
               | _ :: _ => up_stacklevel (walk_start callers) stacklevel
               end)).
Proof.
  unfold findCaller, currentframe, walk_start. destruct has_getframe; [|reflexivity].
  destruct callers as [|c0 [|c1 rest]]; reflexivity.
Qed.

(** With [sys._getframe] the resolver raises exactly on the stacks with
    fewer than two frames above its own, and then it is the interpreter's
    ValueError that it lets through. *)
Theorem findCaller_raises_iff_shallow
    (stack_info : bool) (stacklevel : Z) (callers : list Frame) :
  has_getframe = true ->
  ((exists e, findCaller stack_info stacklevel callers = Raise e)
   <-> (length callers < 2)%nat) /\
  (forall e, findCaller stack_info stacklevel callers = Raise e ->
             e = ValueError "call stack is not deep enough").
Proof.
  intros Hg. rewrite findCaller_run, Hg. cbn [andb].
  destruct (length callers <? 2)%nat eqn:Hlen.
  - apply Nat.ltb_lt in Hlen. split.
    + split; [intros _; exact Hlen | intros _; eexists; reflexivity].
    + intros e [= <-]. reflexivity.
  - apply Nat.ltb_ge in Hlen. split.
    + split; [intros [e He]; discriminate | lia].
    + intros e He; discriminate.
Qed.

Lemma first_external_spec_resolve (f : list Frame) :
  first_external false f = spec_resolve f.
Proof.
  induction f as [|fr f IH]; [reflexivity|].
  cbn [first_external spec_resolve location]. unfold is_core.
  destruct (String.eqb _ _); [exact IH | reflexivity].
Qed.

(** On an interpreter without [sys._getframe] the resolver never raises,
    whatever the stack, and with the default stack level it examines every
    frame above its own: it returns the first frame outside the logging
    core, as the specification words it, or the sentinel. *)
Theorem findCaller_without_getframe_examines_every_frame
    (stack_info : bool) (stacklevel : Z) (callers : list Frame) :
  has_getframe = false ->
  (exists loc, findCaller stack_info stacklevel callers = Ret loc) /\
  findCaller stack_info 1 callers = Ret (first_external stack_info callers) /\
  findCaller false 1 callers = Ret (spec_resolve callers).
Proof.
  intros Hg. rewrite !findCaller_run. unfold walk_start. rewrite Hg. cbn [andb].
  split; [eexists; reflexivity|].
  rewrite !up_stacklevel_default. split; [reflexivity|].
  now rewrite first_external_spec_resolve.
Qed.

Lemma up_stacklevel_drop (f : list Frame) (stacklevel : Z) :
  up_stacklevel f stacklevel = drop (Z.to_nat (stacklevel - 1)) f.
Proof.
  revert stacklevel; induction f as [|fr f IH]; intros stacklevel.
  - now rewrite drop_nil.
  - cbn [up_stacklevel]. destruct (1 <? stacklevel) eqn:Hl.
    + apply Z.ltb_lt in Hl. rewrite IH.
      replace (Z.to_nat (stacklevel - 1)) with (S (Z.to_nat (stacklevel - 1 - 1))) by lia.
      reflexivity.
    + apply Z.ltb_ge in Hl.
      replace (Z.to_nat (stacklevel - 1)) with O by lia. reflexivity.
  Qed.

(** A stack level above 1 moves the start of the walk that many frames
    further out; a stack level that would leave the stack is ignored, and
    the walk starts where it does by default, as it does for every stack
    level of 1 or less. *)
Theorem findCaller_stacklevel
    (stack_info : bool) (stacklevel : Z) (callers : list Frame) :
  (has_getframe = true -> (2 <= length callers)%nat) ->
  let start := if has_getframe then drop 2 callers else callers in
  let further := Z.to_nat (stacklevel - 1) in
  ((further < length start)%nat ->
   findCaller stack_info stacklevel callers
   = Ret (first_external stack_info (drop further start))) /\
  ((length start <= further)%nat ->
   findCaller stack_info stacklevel callers = findCaller stack_info 1 callers) /\
  (stacklevel <= 1 ->
   findCaller stack_info stacklevel callers = findCaller stack_info 1 callers).
Proof.
  intros Hdeep start further.
  assert (Hno : has_getframe && (length callers <? 2)%nat = false).
  { destruct has_getframe; [|reflexivity]. cbn [andb].
    apply Nat.ltb_ge. now apply Hdeep. }
  rewrite !findCaller_run, Hno, up_stacklevel_default, up_stacklevel_drop.
  change (walk_start callers) with start. fold further.
  repeat split.
  - intros Hin. destruct (drop further start) eqn:Hd; [|reflexivity].
    apply (f_equal length) in Hd. rewrite length_drop in Hd. simpl in Hd. lia.
  - intros Hout. now rewrite drop_ge.
  - intros Hlvl. subst further. replace (Z.to_nat (stacklevel - 1)) with O by lia.
    rewrite drop_0. now destruct start.
Qed.

Lemma first_external_frame_part (stack_info : bool) (f : list Frame) :
  (first_external stack_info f).1 = (first_external false f).1 /\
  (first_external false f).2 = None.
Proof.
  induction f as [|fr f IH]; [split; reflexivity|].
  cbn [first_external]. destruct (String.eqb _ _); [exact IH | split; reflexivity].
Qed.

(** Asking for the stack text does not change which frame is reported:
    with and without it the resolver ends the same way, with the same
    file, line and function, and without it the fourth component is
    none. *)
Theorem findCaller_stack_info_same_frame (stacklevel : Z) (callers : list Frame) :
  match findCaller true stacklevel callers, findCaller false stacklevel callers with
  | Ret with_text, Ret without => with_text.1 = without.1 /\ without.2 = None
  | Raise e, Raise e' => e = e'
  | _, _ => False
  end.
Proof.
  rewrite !findCaller_run.
  destruct (has_getframe && (length callers <? 2)%nat); [reflexivity|].
  apply first_external_frame_part.
Qed.

Lemma rstrip_newline_cons (c : ascii) (s : string) :
  s <> EmptyString ->
  PyStr.rstrip_newline (String c s) = String c (PyStr.rstrip_newline s).
Proof. destruct s; [contradiction | reflexivity]. Qed.

Lemma rstrip_newline_app (s : string) :
  PyStr.rstrip_newline (s +:+ String "010"%char EmptyString) = s.
Proof.
  induction s as [|c s IH]; [reflexivity|].
  change (String c s +:+ String "010"%char EmptyString)
    with (String c (s +:+ String "010"%char EmptyString)).
  rewrite rstrip_newline_cons, IH; [reflexivity|].
  destruct s; discriminate.
Qed.

(** The stack text of a reported frame is the header line followed by
    the rendered frames, without the newline that ends the rendering. *)
Theorem stack_text_drops_final_newline
    (fr : Frame) (rest : list Frame) (body : string) :
  is_core fr = false ->
  print_stack (fr :: rest) = body +:+ String "010"%char EmptyString ->
  first_external true (fr :: rest) =
  (co_filename (f_code fr), f_lineno fr, co_name (f_code fr),
   Some ("Stack (most recent call last):" +:+ String "010"%char EmptyString +:+ body)).
Proof.
  intros Hfr Hbody. cbn [first_external]. unfold is_core in Hfr. rewrite Hfr.
  unfold stack_text. rewrite Hbody.
  replace ("Stack (most recent call last):" +:+ String "010"%char EmptyString
           +:+ body +:+ String "010"%char EmptyString)
    with (("Stack (most recent call last):" +:+ String "010"%char EmptyString
           +:+ body) +:+ String "010"%char EmptyString).
  - now rewrite rstrip_newline_app.
  - cbn. reflexivity.
Qed.

(** Reached through two wrapper frames, as from the inherited dispatch
    ([log] calling [_log] calling the resolver), the resolver skips the
    frame of [network] and reports the caller of [network]; called by
    [network] itself it passes that caller over and reports from the
    caller's caller on.  The location in the record and the location in
    the application warning are one frame apart. *)
Theorem resolver_through_dispatch_and_direct
    (wrapper1 wrapper2 caller : Frame) (outer : list Frame) :
  has_getframe = true ->
  is_core caller = false ->
  findCaller false 1 (wrapper1 :: wrapper2 :: frame_of "network" 107 :: caller :: outer)
  = Ret (co_filename (f_code caller), f_lineno caller, co_name (f_code caller), None)
  /\ network_caller (caller :: outer) = Ret (first_external false outer).
Proof.
  intros Hg Hcaller. split.
  - rewrite findCaller_run, Hg. cbn [andb length Nat.ltb Nat.leb].
    unfold walk_start. rewrite Hg. cbn [drop]. rewrite up_stacklevel_default.
    cbn [first_external].
    change (String.eqb (normcase (co_filename (f_code (frame_of "network" 107)))) _srcfile)
      with (is_core (frame_of "network" 107)).
    rewrite network_frame_is_core. unfold is_core in Hcaller. now rewrite Hcaller.
  - rewrite network_caller_resolved. now rewrite Hg.
Qed.

(** While no publish fails no logging call raises, whatever handlers are
    attached: the call returns normally and leaves the transport as
    reliable as it found it, so the calls after it return normally too. *)
Theorem logging_returns_on_reliable_transport
    (self : HummingbotLogger) (lvl : Z) (text : string) (w : World) :
  reliable w ->
  result_of (log self lvl text) w = Ret tt /\
  reliable (world_after (log self lvl text) w) /\
  (forall (other : HummingbotLogger) lvl' text',
     result_of (log other lvl' text') (world_after (log self lvl text) w) = Ret tt).
Proof.
  intros Hw.
  assert (Hw' : reliable (world_after (log self lvl text) w))
    by (apply (st_reliable _ _ _ (log_step self lvl text w)), Hw).
  split; [now apply log_reliable|]. split; [exact Hw'|].
  intros other lvl' text'. now apply log_reliable.
Qed.

End Logger.

(** ** The validators of the Injective configuration map *)

Lemma repr_MAINNET_NODES :
  InjectiveV2Utils.repr_list InjectiveV2Utils.MAINNET_NODES
  = "['lb', 'sentry0', 'sentry1', 'sentry3']"%string.
Proof. reflexivity. Qed.

(** [validate_node] accepts exactly the four known mainnet nodes and
    returns an accepted node unchanged; every other name is refused with
    a ValueError naming it and the known nodes; an accepted node gives a
    secure connection exactly when it is lb. *)
Theorem validate_node_accepts_known_nodes (v : string) :
  ((exists r, InjectiveV2Utils.validate_node v = Ret r) <->
   (v = "lb" \/ v = "sentry0" \/ v = "sentry1" \/ v = "sentry3")%string) /\
  (forall r, InjectiveV2Utils.validate_node v = Ret r -> r = v) /\
  (forall e, InjectiveV2Utils.validate_node v = Raise e ->
     e = ValueError (v +:+ " is not a valid node (['lb', 'sentry0', 'sentry1', 'sentry3'])")) /\
  (forall r, InjectiveV2Utils.validate_node v = Ret r ->
     (InjectiveV2Utils.mainnet_use_secure_connection r = true <-> r = "lb"%string) /\
     (InjectiveV2Utils.mainnet_use_secure_connection r = false <->
      (r = "sentry0" \/ r = "sentry1" \/ r = "sentry3")%string)).
Proof.
  assert (Hin : v ∈ InjectiveV2Utils.MAINNET_NODES <->
                (v = "lb" \/ v = "sentry0" \/ v = "sentry1" \/ v = "sentry3")%string).
  { unfold InjectiveV2Utils.MAINNET_NODES. rewrite list_elem_of_In. simpl.
    split.
    - intros [H | [H | [H | [H | []]]]]; auto.
    - intros [H | [H | [H | H]]]; auto 6. }
  unfold InjectiveV2Utils.validate_node. case_bool_decide as Hv.
  - split; [|split; [|split]].
    + split; [intros _; now apply Hin | intros _; now exists v].
    + now intros r [= <-].
    + intros e He; discriminate.
    + intros r [= <-]. apply Hin in Hv.
      destruct Hv as [-> | [-> | [-> | ->]]]; split; split;
        first [reflexivity | discriminate
              | intros [H | [H | H]]; discriminate
              | solve [intros _; auto]].
  - split; [|split; [|split]].
    + split; [intros [r Hr]; discriminate | intros H; now apply Hin in H].
    + intros r Hr; discriminate.
    + intros e [= <-]. reflexivity.
    + intros r Hr; discriminate.
Qed.

(** [validate_network] on a string looks the string up among the three
    titles: the testnet and custom titles construct their own classes;
    the mainnet title is mapped to the abstract base class, whose
    construction raises a TypeError; any other string is refused with a
    ValueError listing the titles.  A mapping or an instance of a network
    mode is handed back as it is, so validating a validated value changes
    nothing. *)
Theorem validate_network_by_title (v : InjectiveV2Utils.Raw InjectiveV2Utils.NetworkModeClass) :
  (forall s, v = InjectiveV2Utils.RawStr s ->
     (s = "mainnet_network"%string ->
      exists what, InjectiveV2Utils.validate_network v = Raise (TypeError what)) /\
     (s = "testnet_network"%string ->
      InjectiveV2Utils.validate_network v
      = Ret (InjectiveV2Utils.Constructed InjectiveV2Utils.InjectiveTestnetNetworkMode)) /\
     (s = "custom_network"%string ->
      InjectiveV2Utils.validate_network v
      = Ret (InjectiveV2Utils.Constructed InjectiveV2Utils.InjectiveCustomNetworkMode)) /\
     (s <> "mainnet_network"%string -> s <> "testnet_network"%string ->
      s <> "custom_network"%string ->
      InjectiveV2Utils.validate_network v
      = Raise (ValueError
                 "Invalid network, please choose a value from ['mainnet_network', 'testnet_network', 'custom_network']."))) /\
  ((forall s, v <> InjectiveV2Utils.RawStr s) ->
     InjectiveV2Utils.validate_network v = Ret (InjectiveV2Utils.Given v)) /\
  (forall r, InjectiveV2Utils.validate_network v = Ret (InjectiveV2Utils.Given r) ->
     r = v /\
     InjectiveV2Utils.validate_network r = Ret (InjectiveV2Utils.Given r)).
Proof.
  split; [|split].
  - intros s ->. split; [|split; [|split]].
    + intros ->. eexists. reflexivity.
    + intros ->. reflexivity.
    + intros ->. reflexivity.
    + intros H1 H2 H3.
      unfold InjectiveV2Utils.validate_network, InjectiveV2Utils.validate_against.
      cbn [InjectiveV2Utils.isinstance_of InjectiveV2Utils.getitem
           InjectiveV2Utils.NETWORK_MODES].
      unfold InjectiveV2Utils.mainnet_title, InjectiveV2Utils.testnet_title,
        InjectiveV2Utils.custom_title.
      apply String.eqb_neq in H1, H2, H3. rewrite H1, H2, H3. reflexivity.
  - intros Hns. destruct v as [s | d | cls fields]; [now destruct (Hns s) | reflexivity|].
    destruct cls; reflexivity.
  - intros r. destruct v as [s | d | cls fields].
    + unfold InjectiveV2Utils.validate_network, InjectiveV2Utils.validate_against.
      cbn [InjectiveV2Utils.isinstance_of].
      destruct (InjectiveV2Utils.getitem _ s) as [cls|]; [destruct cls|]; discriminate.
    + intros [= <-]. split; reflexivity.
    + destruct cls; intros [= <-]; split; reflexivity.
Qed.

(** [validate_account_type] on a string asks for the account mode whose
    title the string is, and refuses any other string with a ValueError
    listing the two titles; a mapping or an instance of an account mode
    is handed back as it is. *)
Theorem validate_account_type_by_title
    (v : InjectiveV2Utils.Raw InjectiveV2Utils.AccountModeClass) :
  (forall s, v = InjectiveV2Utils.RawStr s ->
     InjectiveV2Utils.validate_account_type v =
     if String.eqb s "delegate_account"
     then Ret (InjectiveV2Utils.Constructed InjectiveV2Utils.InjectiveDelegatedAccountMode)
     else if String.eqb s "vault_account"
     then Ret (InjectiveV2Utils.Constructed InjectiveV2Utils.InjectiveVaultAccountMode)
     else Raise (ValueError
                   "Invalid account type, please choose a value from ['delegate_account', 'vault_account'].")) /\
  ((forall s, v <> InjectiveV2Utils.RawStr s) ->
     InjectiveV2Utils.validate_account_type v = Ret (InjectiveV2Utils.Given v)) /\
  (forall r, InjectiveV2Utils.validate_account_type v = Ret (InjectiveV2Utils.Given r) ->
     r = v /\
     InjectiveV2Utils.validate_account_type r = Ret (InjectiveV2Utils.Given r)).
Proof.
  split; [|split].
  - intros s ->.
    unfold InjectiveV2Utils.validate_account_type, InjectiveV2Utils.validate_against.
    cbn [InjectiveV2Utils.isinstance_of InjectiveV2Utils.getitem
         InjectiveV2Utils.ACCOUNT_MODES].
    unfold InjectiveV2Utils.delegate_title, InjectiveV2Utils.vault_title.
    destruct (String.eqb s "delegate_account"); [reflexivity|].
    destruct (String.eqb s "vault_account"); reflexivity.
  - intros Hns. destruct v as [s | d | cls fields]; [now destruct (Hns s) | reflexivity|].
    destruct cls; reflexivity.
  - intros r. destruct v as [s | d | cls fields].
    + unfold InjectiveV2Utils.validate_account_type, InjectiveV2Utils.validate_against.
      cbn [InjectiveV2Utils.isinstance_of].
      destruct (InjectiveV2Utils.getitem _ s) as [cls|]; [destruct cls|]; discriminate.
    + intros [= <-]. split; reflexivity.
    + destruct cls; intros [= <-]; split; reflexivity.
Qed.

(** ** The theorems at sample inputs *)

(** The resolver on a shallow stack: one frame above its own. *)
Lemma findCaller_raises_on_shallow_stack :
  findCaller logger_file posix_normcase true sample_print_stack false 1
    [frame_at "script.py" "<module>" 3]
  = Raise (ValueError "call stack is not deep enough").
Proof. reflexivity. Qed.

(** C5: the caller resolver is to return the first frame outside the
    logging core's file.  Called from [network], itself called from
    [tick], called from [main], it does not: the first frame outside the
    logging core is [tick]'s, the one returned is [main]'s. *)
Lemma findCaller_passes_over_first_external_frame :
  findCaller logger_file posix_normcase true sample_print_stack false 1 sample_stack
  = Ret ("bin/hummingbot.py"%string, 7, "main"%string, None) /\
  spec_resolve logger_file posix_normcase sample_print_stack sample_stack
  = ("strategy/maker.py"%string, 40, "tick"%string, None) /\
  findCaller logger_file posix_normcase true sample_print_stack false 1 sample_stack
  <> Ret (spec_resolve logger_file posix_normcase sample_print_stack sample_stack).
Proof. split; [reflexivity | split; [reflexivity | discriminate]]. Qed.

(** A broker that refuses the next message: [emit] and the logging call
    both end with the transport's exception. *)
Lemma emit_raises_when_publish_fails :
  result_of (MQTTHandler_emit sample_format sample_handler sample_record)
            (sample_world [] [Some broker_down])
  = Raise broker_down /\
  result_of (log sample_getLevelName sample_format sample_logger 20 "hello")
            (sample_world [] [Some broker_down])
  = Raise broker_down /\
  result_of (MQTTHandler_emit sample_format sample_handler sample_record)
            (sample_world [] [Some broker_down])
  <> Ret tt.
Proof. split; [reflexivity | split; [reflexivity | discriminate]]. Qed.

(** With INFO at 20, the one record [notify] dispatches has level 20,
    which is no rank strictly between INFO and WARNING. *)
Lemma notify_does_not_log_at_NOTIFY :
  exists record text,
    logger_events
      (trace (world_after
                (notify 20 sample_getLevelName sample_format sample_timestamp
                        sample_logger "x")
                (sample_world ["bin/hummingbot.py"%string] [])))
    = [EvRecord record; EvAppNotify text] /\
    rec_msg record = "x"%string /\
    levelno record = 20 /\
    ~ is_NOTIFY_rank 20 (levelno record).
Proof.
  eexists. eexists. split; [reflexivity|]. split; [reflexivity|].
  split; [reflexivity|]. unfold is_NOTIFY_rank; simpl. lia.
Qed.

Lemma publish_failure_propagates_witness :
  (forall any_record w0,
     result_of (MQTTHandler_emit sample_format sample_handler any_record) w0 =
     match transport w0 with
     | Some failure :: _ => Raise failure
     | _ => Ret tt
     end) /\
  result_of (MQTTHandler_emit sample_format sample_handler sample_record)
            (sample_world [] [Some broker_down; None])
  = Raise broker_down /\
  result_of (log sample_getLevelName sample_format sample_logger 20 "hello")
            (sample_world [] [Some broker_down; None])
  = Raise broker_down /\
  (forall lvl' text',
     result_of (log sample_getLevelName sample_format sample_logger lvl' text')
       (world_after (log sample_getLevelName sample_format sample_logger 20 "hello")
                    (sample_world [] [Some broker_down; None]))
     = Ret tt).
Proof.
  apply (publish_failure_propagates sample_getLevelName sample_format
           sample_handler sample_record sample_logger [HStd 0 NOTSET] [] 20 "hello"
           broker_down [None] (sample_world [] [Some broker_down; None])).
  - reflexivity.
  - repeat constructor.
  - reflexivity.
  - repeat constructor.
  - reflexivity.
  - simpl. lia.
  - simpl. unfold NOTSET. lia.
  - simpl. unfold NOTSET. lia.
Defined.

Lemma notify_logs_at_INFO_witness :
  reliable (sample_world ["bin/hummingbot.py"%string] [None]) /\
  logger_events
    (trace (world_after
              (notify 20 sample_getLevelName sample_format sample_timestamp
                      sample_logger "x")
              (sample_world ["bin/hummingbot.py"%string] [None])))
  = [EvRecord {| rec_name := "x.y"; levelno := 20; levelname := "INFO";
                 rec_msg := "x" |};
     EvAppNotify "(2023-11-14 22:13:21) x"] /\
  result_of (notify 20 sample_getLevelName sample_format sample_timestamp
                    sample_logger "x")
            (sample_world ["bin/hummingbot.py"%string] [None])
  = Ret tt /\
  result_of (log sample_getLevelName sample_format sample_logger 20 "x")
            (sample_world ["bin/hummingbot.py"%string] [None])
  = Ret tt.
Proof.
  assert (Hrel : reliable (sample_world ["bin/hummingbot.py"%string] [None]))
    by repeat constructor.
  split; [exact Hrel|].
  destruct (notify_logs_at_INFO 20 sample_getLevelName sample_format sample_timestamp
              sample_logger "x" (sample_world ["bin/hummingbot.py"%string] [None]))
    as (Hevents & Hresult & Hlog).
  split; [exact Hevents|]. split; [exact Hresult|]. exact (Hlog Hrel).
Defined.

(** A warning message, test mode off, the host application running, and
    a broker that refuses the NETWORK record: [network] raises and
    nothing reaches the host application. *)
Lemma network_does_not_escalate_when_publish_fails :
  is_testing_mode ["bin/hummingbot.py"%string] = false /\
  main_app (sample_world ["bin/hummingbot.py"%string] [Some broker_down])
  = Some TheApplication /\
  result_of (network 16 logger_file posix_normcase true sample_getLevelName
                     sample_format sample_print_stack sample_logger "timeout"
                     (Some "Check the network"%string) (tail sample_stack))
            (sample_world ["bin/hummingbot.py"%string] [Some broker_down])
  = Raise broker_down /\
  app_calls
    (trace (world_after
              (network 16 logger_file posix_normcase true sample_getLevelName
                       sample_format sample_print_stack sample_logger "timeout"
                       (Some "Check the network"%string) (tail sample_stack))
              (sample_world ["bin/hummingbot.py"%string] [Some broker_down])))
  = [].
Proof. repeat (split; [reflexivity|]). reflexivity. Qed.

Lemma network_logs_and_escalates_witness :
  reliable (sample_world ["bin/hummingbot.py"%string] [None; None]) /\
  exists location,
    network_caller logger_file posix_normcase true sample_print_stack
      (tail sample_stack) = Ret location /\
    logger_events
      (trace (world_after
                (network 16 logger_file posix_normcase true sample_getLevelName
                         sample_format sample_print_stack sample_logger "timeout"
                         (Some "Check the network"%string) (tail sample_stack))
                (sample_world ["bin/hummingbot.py"%string] [None; None])))
    = [EvRecord {| rec_name := "x.y"; levelno := 16; levelname := "Level";
                   rec_msg := "timeout" |};
       EvRecord {| rec_name := "x.y"; levelno := 30; levelname := "WARNING";
                   rec_msg := "Check the network" |};
       EvAppWarning {| aw_timestamp := 1700000001 # 1; aw_logger_name := "x.y";
                       caller_info := location;
                       warning_msg := "Check the network" |}] /\
    result_of (network 16 logger_file posix_normcase true sample_getLevelName
                       sample_format sample_print_stack sample_logger "timeout"
                       (Some "Check the network"%string) (tail sample_stack))
              (sample_world ["bin/hummingbot.py"%string] [None; None])
    = Ret tt.
Proof.
  split; [repeat constructor|].
  destruct (network_logs_and_escalates 16 logger_file posix_normcase true
              sample_getLevelName sample_format sample_print_stack sample_logger
              "timeout" (Some "Check the network"%string)
              (frame_at "strategy/maker.py" "tick" 40)
              [frame_at "bin/hummingbot.py" "main" 7]
              (sample_world ["bin/hummingbot.py"%string] [None; None]))
    as (_ & _ & Hescalate & _).
  exact (Hescalate "Check the network"%string eq_refl eq_refl eq_refl).
Defined.

Lemma no_escalation_in_test_mode_witness :
  is_testing_mode ["/usr/bin/pytest"; "test/"]%string = true /\
  (app_calls (trace (world_after
                       (notify 20 sample_getLevelName sample_format sample_timestamp
                               sample_logger "x")
                       (sample_world ["/usr/bin/pytest"; "test/"]%string [])))
   = [] /\
   result_of (notify 20 sample_getLevelName sample_format sample_timestamp
                     sample_logger "x")
             (sample_world ["/usr/bin/pytest"; "test/"]%string [])
   = result_of (log sample_getLevelName sample_format sample_logger 20 "x")
               (sample_world ["/usr/bin/pytest"; "test/"]%string [])) /\
  (app_calls (trace (world_after
                       (network 16 logger_file posix_normcase true sample_getLevelName
                                sample_format sample_print_stack sample_logger "x"
                                (Some "y"%string) (tail sample_stack))
                       (sample_world ["/usr/bin/pytest"; "test/"]%string [])))
   = [] /\
   result_of (network 16 logger_file posix_normcase true sample_getLevelName
                      sample_format sample_print_stack sample_logger "x"
                      (Some "y"%string) (tail sample_stack))
             (sample_world ["/usr/bin/pytest"; "test/"]%string [])
   = result_of (log sample_getLevelName sample_format sample_logger 16 "x")
               (sample_world ["/usr/bin/pytest"; "test/"]%string [])).
Proof.
  split; [reflexivity|].
  apply (no_escalation_in_test_mode 20 16 logger_file posix_normcase true
           sample_getLevelName sample_format sample_timestamp sample_print_stack
           sample_logger "x" "x" (Some "y"%string) (tail sample_stack)
           (sample_world ["/usr/bin/pytest"; "test/"]%string [])).
  reflexivity.
Defined.

Lemma findCaller_skips_core_frames_witness :
  exists loc,
    findCaller logger_file posix_normcase true sample_print_stack false 1 dispatch_stack
    = Ret loc /\
    (loc = unknown_caller \/
     posix_normcase loc.1.1.1 <> _srcfile logger_file posix_normcase) /\
    ((exists skipped fr rest,
        drop 2 dispatch_stack = skipped ++ fr :: rest /\
        Forall (fun x => is_core logger_file posix_normcase x = true) skipped /\
        is_core logger_file posix_normcase fr = false /\
        loc = (co_filename (f_code fr), f_lineno fr, co_name (f_code fr), None))
     \/ (Forall (fun x => is_core logger_file posix_normcase x = true)
                (drop 2 dispatch_stack) /\
         loc = unknown_caller)).
Proof.
  apply (findCaller_skips_core_frames logger_file posix_normcase true
           sample_print_stack false dispatch_stack).
  intros _. simpl. lia.
Defined.

(** On that stack the frame of [network] is skipped and [tick] reported. *)
Example findCaller_skips_network_frame :
  findCaller logger_file posix_normcase true sample_print_stack false 1 dispatch_stack
  = Ret ("strategy/maker.py"%string, 40, "tick"%string, None) /\
  is_core logger_file posix_normcase
    (frame_at "hummingbot/logger/logger.py" "network" 107) = true.
Proof. split; reflexivity. Qed.

Lemma findCaller_total_on_deep_stacks_witness :
  exists loc,
    findCaller logger_file posix_normcase true sample_print_stack true 2
      [frame_at logger_file "network" 112; frame_at "strategy/maker.py" "tick" 40]
    = Ret loc /\
    (Forall (fun x => is_core logger_file posix_normcase x = true)
            (drop 2 [frame_at logger_file "network" 112;
                     frame_at "strategy/maker.py" "tick" 40]) ->
     loc = ("(unknown file)"%string, 0, "(unknown function)"%string, None)).
Proof.
  apply (findCaller_total_on_deep_stacks logger_file posix_normcase true
           sample_print_stack true 2
           [frame_at logger_file "network" 112;
            frame_at "strategy/maker.py" "tick" 40]).
  intros _. simpl. lia.
Defined.

Lemma default_topic_from_installation_id_witness :
  (exists h,
     result_of (MQTTHandler_init None (Some ""%string)) (sample_world [] []) = Ret h /\
     topic (mqtt_pub h) = PyStr.replace "$UID" "bot-7" "hbot/$UID/log" /\
     topic (mqtt_pub h) = "hbot/bot-7/log"%string) /\
  (forall nm lg h,
     result_of (HummingbotLogger_init nm) (sample_world [] []) = Ret lg ->
     In (HMQTT h) (handlers lg) ->
     topic (mqtt_pub h) = "hbot/bot-7/log"%string).
Proof.
  apply (default_topic_from_installation_id None (Some ""%string) "bot-7"
           (sample_world [] [])).
  - left. reflexivity.
  - reflexivity.
Defined.

(** ** Further sample runs *)

(** The flag values TRUE and yes are not allow-listed, true is. *)
Example flag_tokens :
  bool_decide (Some "TRUE"%string ∈ MQTT_LOGGING_TOKENS) = false /\
  bool_decide (Some "yes"%string ∈ MQTT_LOGGING_TOKENS) = false /\
  bool_decide (None ∈ MQTT_LOGGING_TOKENS) = false /\
  bool_decide (Some "true"%string ∈ MQTT_LOGGING_TOKENS) = true.
Proof. vm_compute. auto. Qed.

(** With the installation identifier unset the placeholder becomes the
    text of [None]. *)
Example topic_without_installation_id :
  PyStr.replace "$UID" (PyStr.str_of_optional None) MQTT_URI = "hbot/None/log"%string.
Proof. reflexivity. Qed.

(** Called from [network] at the top level of a script, the resolver finds
    no frame left to examine. *)
Example findCaller_at_top_level :
  findCaller logger_file posix_normcase true sample_print_stack false 1
    [frame_at logger_file "network" 112; frame_at "script.py" "<module>" 3]
  = Ret unknown_caller.
Proof. reflexivity. Qed.

(** Without [sys._getframe] the walk starts at the direct caller. *)
Example findCaller_without_getframe :
  findCaller logger_file posix_normcase false sample_print_stack false 1 sample_stack
  = Ret ("strategy/maker.py"%string, 40, "tick"%string, None).
Proof. reflexivity. Qed.

Example a_path_switches_test_mode_on :
  is_testing_mode ["bin/hummingbot.py"; "--conf=/home/u/pytest_runs/conf.yml"]%string
  = true.
Proof. reflexivity. Qed.

(** ** The further theorems at sample inputs *)

Lemma explicit_topic_used_verbatim_witness :
  exists h,
    MQTTHandler_init None (Some "fleet/logs"%string) (sample_world [] [])
    = (Ret h, sample_world [] []) /\
    topic (mqtt_pub h) = "fleet/logs"%string /\
    mqtt_level h = 0.
Proof.
  apply (explicit_topic_used_verbatim None "fleet/logs" (sample_world [] [])).
  discriminate.
Defined.

Lemma default_topic_without_installation_id_witness :
  exists h,
    MQTTHandler_init None None (sample_world_in ∅ [] [])
    = (Ret h, sample_world_in ∅ [] []) /\
    topic (mqtt_pub h) = "hbot/None/log"%string.
Proof.
  apply (default_topic_without_installation_id None None (sample_world_in ∅ [] [])).
  - right. reflexivity.
  - reflexivity.
Defined.

Lemma fresh_logger_ships_every_record_witness :
  trace (world_after
           (construct_and_log sample_getLevelName sample_format
              (logger_name_for_class sample_class) 20 "hello")
           (sample_world_in
              (<["HBOT_MQTT_LOGGING"%string := "true"%string]>
                 {[ "HBOT_UID"%string := "bot-7"%string ]})
              [] [Some broker_down]))
  = [EvRecord {| rec_name := "hummingbot.strategy.maker.Maker"; levelno := 20;
                 levelname := "INFO"; rec_msg := "hello" |};
     EvPublish "hbot/bot-7/log"
       {| timestamp := 1700000000 # 1; msg := "hello"; level_no := 20;
          level_name := "INFO"; logger_name := "hummingbot.strategy.maker.Maker" |}]
  /\ result_of
       (construct_and_log sample_getLevelName sample_format
          (logger_name_for_class sample_class) 20 "hello")
       (sample_world_in
          (<["HBOT_MQTT_LOGGING"%string := "true"%string]>
             {[ "HBOT_UID"%string := "bot-7"%string ]})
          [] [Some broker_down])
     = Raise broker_down.
Proof.
  apply (fresh_logger_ships_every_record sample_getLevelName sample_format
           sample_class 20 "hello" "true" "bot-7"
           (sample_world_in
              (<["HBOT_MQTT_LOGGING"%string := "true"%string]>
                 {[ "HBOT_UID"%string := "bot-7"%string ]})
              [] [Some broker_down])).
  - reflexivity.
  - simpl. auto.
  - reflexivity.
  - simpl. lia.
  - lia.
Defined.


Lemma notify_reaches_application_when_filtered_witness :
  result_of (notify 20 sample_getLevelName sample_format sample_timestamp
                    quiet_logger "x")
            (sample_world ["bin/hummingbot.py"%string] [Some broker_down])
  = Ret tt /\
  trace (world_after
           (notify 20 sample_getLevelName sample_format sample_timestamp
                   quiet_logger "x")
           (sample_world ["bin/hummingbot.py"%string] [Some broker_down]))
  = [EvAppNotify "(2023-11-14 22:13:20) x"] /\
  transport (world_after
               (notify 20 sample_getLevelName sample_format sample_timestamp
                       quiet_logger "x")
               (sample_world ["bin/hummingbot.py"%string] [Some broker_down]))
  = [Some broker_down].
Proof.
  apply (notify_reaches_application_when_filtered 20 sample_getLevelName sample_format
           sample_timestamp quiet_logger "x"
           (sample_world ["bin/hummingbot.py"%string] [Some broker_down])).
  - simpl. lia.
  - reflexivity.
  - discriminate.
Defined.

Lemma network_escalates_when_filtered_witness :
  result_of (network 16 logger_file posix_normcase true sample_getLevelName
                     sample_format sample_print_stack quiet_logger "timeout"
                     (Some "Check the network"%string) (tail sample_stack))
            (sample_world ["bin/hummingbot.py"%string] [Some broker_down])
  = Ret tt /\
  trace (world_after
           (network 16 logger_file posix_normcase true sample_getLevelName
                    sample_format sample_print_stack quiet_logger "timeout"
                    (Some "Check the network"%string) (tail sample_stack))
           (sample_world ["bin/hummingbot.py"%string] [Some broker_down]))
  = [EvAppWarning {| aw_timestamp := 1700000000 # 1; aw_logger_name := "x.y";
                     caller_info := ("bin/hummingbot.py"%string, 7, "main"%string, None);
                     warning_msg := "Check the network" |}] /\
  transport (world_after
               (network 16 logger_file posix_normcase true sample_getLevelName
                        sample_format sample_print_stack quiet_logger "timeout"
                        (Some "Check the network"%string) (tail sample_stack))
               (sample_world ["bin/hummingbot.py"%string] [Some broker_down]))
  = [Some broker_down].
Proof.
  apply (network_escalates_when_filtered 16 logger_file posix_normcase true
           sample_getLevelName sample_format sample_print_stack quiet_logger
           "timeout" "Check the network"
           (frame_at "strategy/maker.py" "tick" 40)
           [frame_at "bin/hummingbot.py" "main" 7]
           (sample_world ["bin/hummingbot.py"%string] [Some broker_down])).
  - simpl. lia.
  - simpl. unfold WARNING. lia.
  - reflexivity.
  - discriminate.
Defined.

Lemma handlers_behind_failed_publish_not_reached_witness :
  trace (world_after (log sample_getLevelName sample_format chained_logger 20 "hello")
                     (sample_world [] [Some broker_down]))
  = [EvRecord sample_record; EvHandled 0 sample_record;
     EvPublish "hbot/bot-7/log"
       {| timestamp := 1700000000 # 1; msg := "hello"; level_no := 20;
          level_name := "INFO"; logger_name := "x.y" |}].
Proof.
  apply (handlers_behind_failed_publish_not_reached sample_getLevelName sample_format
           chained_logger sample_handler [HStd 0 NOTSET] [HStd 1 NOTSET] 20 "hello"
           broker_down [] (sample_world [] [Some broker_down])).
  - reflexivity.
  - reflexivity.
  - repeat constructor.
  - reflexivity.
  - simpl. lia.
  - simpl. unfold NOTSET. lia.
  - simpl. unfold NOTSET. lia.
Defined.

Lemma publish_failure_suppresses_warning_witness :
  result_of (network 16 logger_file posix_normcase true sample_getLevelName
                     sample_format sample_print_stack sample_logger "timeout"
                     (Some "Check the network"%string) (tail sample_stack))
            (sample_world ["bin/hummingbot.py"%string] [Some broker_down])
  = Raise broker_down /\
  app_calls (trace (world_after
                      (network 16 logger_file posix_normcase true sample_getLevelName
                               sample_format sample_print_stack sample_logger "timeout"
                               (Some "Check the network"%string) (tail sample_stack))
                      (sample_world ["bin/hummingbot.py"%string] [Some broker_down])))
  = [] /\
  logger_events (trace (world_after
                      (network 16 logger_file posix_normcase true sample_getLevelName
                               sample_format sample_print_stack sample_logger "timeout"
                               (Some "Check the network"%string) (tail sample_stack))
                      (sample_world ["bin/hummingbot.py"%string] [Some broker_down])))
  = [EvRecord {| rec_name := "x.y"; levelno := 16; levelname := "Level";
                 rec_msg := "timeout" |}].
Proof.
  apply (publish_failure_suppresses_warning 16 logger_file posix_normcase true
           sample_getLevelName sample_format sample_print_stack sample_logger
           sample_handler [HStd 0 NOTSET] [] "timeout"
           (Some "Check the network"%string) (tail sample_stack) broker_down []
           (sample_world ["bin/hummingbot.py"%string] [Some broker_down])).
  - reflexivity.
  - reflexivity.
  - repeat constructor.
  - reflexivity.
  - simpl. lia.
  - simpl. unfold NOTSET. lia.
  - simpl. unfold NOTSET. lia.
Defined.

Lemma publish_failure_suppresses_notification_witness :
  result_of (notify 20 sample_getLevelName sample_format sample_timestamp
                    sample_logger "x")
            (sample_world ["bin/hummingbot.py"%string] [Some broker_down])
  = Raise broker_down /\
  app_calls (trace (world_after
                      (notify 20 sample_getLevelName sample_format sample_timestamp
                              sample_logger "x")
                      (sample_world ["bin/hummingbot.py"%string] [Some broker_down])))
  = [] /\
  logger_events (trace (world_after
                      (notify 20 sample_getLevelName sample_format sample_timestamp
                              sample_logger "x")
                      (sample_world ["bin/hummingbot.py"%string] [Some broker_down])))
  = [EvRecord {| rec_name := "x.y"; levelno := 20; levelname := "INFO";
                 rec_msg := "x" |}].
Proof.
  apply (publish_failure_suppresses_notification 20 sample_getLevelName sample_format
           sample_timestamp sample_logger sample_handler [HStd 0 NOTSET] [] "x"
           broker_down [] (sample_world ["bin/hummingbot.py"%string] [Some broker_down])).
  - reflexivity.
  - reflexivity.
  - repeat constructor.
  - reflexivity.
  - simpl. lia.
  - simpl. unfold NOTSET. lia.
  - simpl. unfold NOTSET. lia.
Defined.

Lemma findCaller_raises_iff_shallow_witness :
  ((exists e,
      findCaller logger_file posix_normcase true sample_print_stack false 1
        [frame_at "script.py" "<module>" 3] = Raise e)
   <-> (length [frame_at "script.py" "<module>" 3] < 2)%nat) /\
  (forall e,
     findCaller logger_file posix_normcase true sample_print_stack false 1
       [frame_at "script.py" "<module>" 3] = Raise e ->
     e = ValueError "call stack is not deep enough").
Proof.
  apply (findCaller_raises_iff_shallow logger_file posix_normcase true
           sample_print_stack false 1 [frame_at "script.py" "<module>" 3]).
  reflexivity.
Defined.

Lemma findCaller_without_getframe_examines_every_frame_witness :
  (exists loc,
     findCaller logger_file posix_normcase false sample_print_stack true 3 sample_stack
     = Ret loc) /\
  findCaller logger_file posix_normcase false sample_print_stack true 1 sample_stack
  = Ret (first_external logger_file posix_normcase sample_print_stack true sample_stack) /\
  findCaller logger_file posix_normcase false sample_print_stack false 1 sample_stack
  = Ret (spec_resolve logger_file posix_normcase sample_print_stack sample_stack).
Proof.
  apply (findCaller_without_getframe_examines_every_frame logger_file posix_normcase
           false sample_print_stack true 3 sample_stack).
  reflexivity.
Defined.

Lemma findCaller_stacklevel_witness :
  ((Z.to_nat (2 - 1) < length (drop 2 (sample_stack ++ sample_stack)))%nat ->
   findCaller logger_file posix_normcase true sample_print_stack false 2
     (sample_stack ++ sample_stack)
   = Ret (first_external logger_file posix_normcase sample_print_stack false
            (drop (Z.to_nat (2 - 1)) (drop 2 (sample_stack ++ sample_stack))))) /\
  ((length (drop 2 (sample_stack ++ sample_stack)) <= Z.to_nat (2 - 1))%nat ->
   findCaller logger_file posix_normcase true sample_print_stack false 2
     (sample_stack ++ sample_stack)
   = findCaller logger_file posix_normcase true sample_print_stack false 1
       (sample_stack ++ sample_stack)) /\
  (2 <= 1 ->
   findCaller logger_file posix_normcase true sample_print_stack false 2
     (sample_stack ++ sample_stack)
   = findCaller logger_file posix_normcase true sample_print_stack false 1
       (sample_stack ++ sample_stack)).
Proof.
  apply (findCaller_stacklevel logger_file posix_normcase true sample_print_stack
           false 2 (sample_stack ++ sample_stack)).
  intros _. simpl. lia.
Defined.

Lemma stack_text_drops_final_newline_witness :
  first_external logger_file posix_normcase
    (fun _ => "  File main" +:+ String "010"%char EmptyString) true
    [frame_at "bin/hummingbot.py" "main" 7]
  = ("bin/hummingbot.py"%string, 7, "main"%string,
     Some ("Stack (most recent call last):" +:+ String "010"%char EmptyString
           +:+ "  File main")).
Proof.
  apply (stack_text_drops_final_newline logger_file posix_normcase
           (fun _ => "  File main" +:+ String "010"%char EmptyString)
           (frame_at "bin/hummingbot.py" "main" 7) [] "  File main").
  - reflexivity.
  - reflexivity.
Defined.

Lemma resolver_through_dispatch_and_direct_witness :
  findCaller logger_file posix_normcase true sample_print_stack false 1
    (frame_at "logging/__init__.py" "_log" 1624
     :: frame_at "logging/__init__.py" "log" 1547
     :: frame_of logger_file "network" 107
     :: frame_at "strategy/maker.py" "tick" 40
     :: [frame_at "bin/hummingbot.py" "main" 7])
  = Ret ("strategy/maker.py"%string, 40, "tick"%string, None)
  /\ network_caller logger_file posix_normcase true sample_print_stack
       (frame_at "strategy/maker.py" "tick" 40 :: [frame_at "bin/hummingbot.py" "main" 7])
     = Ret (first_external logger_file posix_normcase sample_print_stack false
              [frame_at "bin/hummingbot.py" "main" 7]).
Proof.
  apply (resolver_through_dispatch_and_direct logger_file posix_normcase true
           sample_print_stack
           (frame_at "logging/__init__.py" "_log" 1624)
           (frame_at "logging/__init__.py" "log" 1547)
           (frame_at "strategy/maker.py" "tick" 40)
           [frame_at "bin/hummingbot.py" "main" 7]).
  - reflexivity.
  - reflexivity.
Defined.

Lemma logging_returns_on_reliable_transport_witness :
  result_of (log sample_getLevelName sample_format chained_logger 20 "hello")
            (sample_world [] [None; None])
  = Ret tt /\
  reliable (world_after (log sample_getLevelName sample_format chained_logger 20 "hello")
                        (sample_world [] [None; None])) /\
  (forall (other : HummingbotLogger) lvl' text',
     result_of (log sample_getLevelName sample_format other lvl' text')
               (world_after (log sample_getLevelName sample_format chained_logger 20 "hello")
                            (sample_world [] [None; None]))
     = Ret tt).
Proof.
  apply (logging_returns_on_reliable_transport sample_getLevelName sample_format
           chained_logger 20 "hello" (sample_world [] [None; None])).
  repeat constructor.
Defined.
